(** * Invoice server actions: validation, transformation and persistence

    A shallow embedding of the two variants of the invoice actions module
    ([src/unnamed/part_003], the earlier one, and [src/unnamed/part_004],
    the later one): [createInvoice], [updateInvoice] and [deleteInvoice],
    together with the parts of the JavaScript runtime, of zod and of the
    Next.js cache and navigation calls that these functions go through.

    JavaScript numbers are IEEE-754 binary64 values, embedded as Rocq's
    primitive [float]; strings are sequences of 8-bit code units. *)

From Stdlib Require Import ZArith Floats Ascii String List Lia Bool.
From stdpp Require Import base option list gmap strings.

Local Open Scope string_scope.
Local Open Scope list_scope.
Local Open Scope Z_scope.

(** ** The JavaScript runtime: [Number] applied to a string *)

Module JS.

(** WhiteSpace and LineTerminator code units below 256: TAB, LF, VT, FF, CR,
    SP and NBSP. *)
Definition isStrWhiteSpaceChar (c : ascii) : bool :=
  let n := N_of_ascii c in
  ((9 <=? n) && (n <=? 13) || (n =? 32) || (n =? 160))%N.

Fixpoint trimStart (s : string) : string :=
  match s with
  | String c s' => if isStrWhiteSpaceChar c then trimStart s' else s
  | EmptyString => EmptyString
  end.

Fixpoint trimEnd (s : string) : string :=
  match s with
  | String c s' =>
      match trimEnd s' with
      | EmptyString => if isStrWhiteSpaceChar c then EmptyString else String c EmptyString
      | t => String c t
      end
  | EmptyString => EmptyString
  end.

Definition trim (s : string) : string := trimEnd (trimStart s).

(** The value of a digit in a radix up to 16, if the code unit is one. *)
Definition digitValue (radix : Z) (c : ascii) : option Z :=
  let n := Z.of_N (N_of_ascii c) in
  let v :=
    if (48 <=? n) && (n <=? 57) then Some (n - 48)
    else if (97 <=? n) && (n <=? 102) then Some (n - 87)
    else if (65 <=? n) && (n <=? 70) then Some (n - 55)
    else None in
  match v with
  | Some d => if d <? radix then Some d else None
  | None => None
  end.

(** Reads the longest run of digits at the head of [s]: the accumulated
    value, the number of digits read and the unread rest. *)
Fixpoint readDigits (radix : Z) (s : string) (acc : Z) (n : Z) : Z * Z * string :=
  match s with
  | String c s' =>
      match digitValue radix c with
      | Some d => readDigits radix s' (radix * acc + d) (n + 1)
      | None => (acc, n, s)
      end
  | EmptyString => (acc, n, s)
  end.

(** The Number value for the mathematical value [m * 10 ^ e10], with the sign
    [neg]: rounded to the nearest binary64, ties to even. *)
Definition roundMV (neg : bool) (m e10 : Z) : float :=
  SF2Prim
    match m with
    | Zpos p =>
        if 0 <=? e10
        then binary_round prec emax neg (p * Z.to_pos (10 ^ e10)) 0
        else SFdiv prec emax (S754_finite neg p 0)
                             (S754_finite false (Z.to_pos (10 ^ (- e10))) 0)
    | _ => S754_zero neg
    end.

(** ExponentPart (optional): [e] or [E], an optional sign, digits. The
    literal must end there. [None] when the text is not of that form. *)
Definition readExponent (s : string) : option Z :=
  match s with
  | EmptyString => Some 0
  | String c s' =>
      if (Ascii.eqb c "e" || Ascii.eqb c "E")%bool then
        let '(neg, s'') :=
          match s' with
          | String "+" t => (false, t)
          | String "-" t => (true, t)
          | _ => (false, s')
          end in
        match readDigits 10 s'' 0 0 with
        | (e, n, EmptyString) =>
            if 0 <? n then Some (if neg : bool then - e else e) else None
        | _ => None
        end
      else None
  end.

(** StrUnsignedDecimalLiteral. *)
Definition StrUnsignedDecimalLiteral (neg : bool) (s : string) : float :=
  if String.eqb s "Infinity" then (if neg then neg_infinity else infinity)
  else
    let '(ip, ni, r1) := readDigits 10 s 0 0 in
    let '(m, nf, r2) :=
      match r1 with
      | String "." t => readDigits 10 t ip 0
      | _ => (ip, 0, r1)
      end in
    if 0 <? ni + nf then
      match readExponent r2 with
      | Some e => roundMV neg m (e - nf)
      | None => nan
      end
    else nan.

(** NonDecimalIntegerLiteral: [0x], [0o] or [0b] followed by digits. *)
Definition NonDecimalIntegerLiteral (s : string) : option float :=
  match s with
  | String "0" (String c t) =>
      let radix :=
        if (Ascii.eqb c "x" || Ascii.eqb c "X")%bool then Some 16
        else if (Ascii.eqb c "o" || Ascii.eqb c "O")%bool then Some 8
        else if (Ascii.eqb c "b" || Ascii.eqb c "B")%bool then Some 2
        else None in
      match radix with
      | Some r =>
          match readDigits r t 0 0 with
          | (v, n, EmptyString) => Some (if 0 <? n then roundMV false v 0 else nan)
          | _ => Some nan
          end
      | None => None
      end
  | _ => None
  end.

(** StringToNumber: the empty or all-blank string is 0, a numeric literal
    is its rounded value, anything else is NaN. *)
Definition StringToNumber (s : string) : float :=
  match trim s with
  | EmptyString => 0%float
  | String "+" t => StrUnsignedDecimalLiteral false t
  | String "-" t => StrUnsignedDecimalLiteral true t
  | t =>
      match NonDecimalIntegerLiteral t with
      | Some v => v
      | None => StrUnsignedDecimalLiteral false t
      end
  end.

(** [Number.isInteger]. *)
Definition isInteger (x : float) : bool :=
  match Prim2SF x with
  | S754_zero _ => true
  | S754_finite _ m e => (0 <=? e) || (Zpos m mod 2 ^ (- e) =? 0)
  | _ => false
  end.

End JS.

(** ** The JavaScript runtime: [Date.prototype.toISOString] and [split] *)

Module JSDate.

Definition msPerDay : Z := 86400000.
Definition Day (t : Z) : Z := t / msPerDay.

(** Year (counted from 1 March), month (1 to 12) and day of the month of
    the day [doe] of a 400-year era that starts on 1 March. *)
Definition dateOfEra (doe : Z) : Z * Z * Z :=
  let yoe := (doe - doe / 1460 + doe / 36524 - doe / 146096) / 365 in
  let doy := doe - (365 * yoe + yoe / 4 - yoe / 100) in
  let mp := (5 * doy + 2) / 153 in
  let d := doy - (153 * mp + 2) / 5 + 1 in
  let m := if mp <? 10 then mp + 3 else mp - 9 in
  (yoe + (if m <=? 2 then 1 else 0), m, d).

(** The proleptic Gregorian date of a day number (day 0 is 1970-01-01). *)
Definition civilFromDay (day : Z) : Z * Z * Z :=
  let z := day + 719468 in
  let '(y, m, d) := dateOfEra (z mod 146097) in
  (y + 400 * (z / 146097), m, d).

Definition YearFromTime (t : Z) : Z := (civilFromDay (Day t)).1.1.
Definition MonthFromTime (t : Z) : Z := (civilFromDay (Day t)).1.2 - 1.
Definition DateFromTime (t : Z) : Z := (civilFromDay (Day t)).2.
Definition HourFromTime (t : Z) : Z := (t / 3600000) mod 24.
Definition MinFromTime (t : Z) : Z := (t / 60000) mod 60.
Definition SecFromTime (t : Z) : Z := (t / 1000) mod 60.
Definition msFromTime (t : Z) : Z := t mod 1000.

Definition digitChar (d : Z) : ascii := ascii_of_N (Z.to_N (48 + d)).

(** The decimal digits of [n] in front of [acc], for [0 <= n]. *)
Fixpoint decimalDigits (fuel : nat) (n : Z) (acc : string) : string :=
  let acc' := String (digitChar (n mod 10)) acc in
  match fuel with
  | O => acc'
  | S fuel' => if n <? 10 then acc' else decimalDigits fuel' (n / 10) acc'
  end.

Definition ToString (n : Z) : string :=
  decimalDigits (Z.to_nat (Z.log2 n)) n "".

Fixpoint repeatChar (c : ascii) (k : nat) : string :=
  match k with
  | O => ""
  | S k' => String c (repeatChar c k')
  end.

Definition ToZeroPaddedDecimalString (n : Z) (minLength : nat) : string :=
  let S := ToString n in
  repeatChar "0" (minLength - String.length S) +:+ S.

(** Four digits for the years 0 to 9999, a sign and six digits otherwise. *)
Definition yearString (yv : Z) : string :=
  if (0 <=? yv) && (yv <=? 9999) then ToZeroPaddedDecimalString yv 4
  else (if yv <? 0 then "-" else "+") +:+ ToZeroPaddedDecimalString (Z.abs yv) 6.

(** The calendar-date part of the ISO format. *)
Definition isoDate (tv : Z) : string :=
  yearString (YearFromTime tv) +:+ "-" +:+
  ToZeroPaddedDecimalString (MonthFromTime tv + 1) 2 +:+ "-" +:+
  ToZeroPaddedDecimalString (DateFromTime tv) 2.

(** The time-of-day part, with the UTC designator. *)
Definition isoTime (tv : Z) : string :=
  ToZeroPaddedDecimalString (HourFromTime tv) 2 +:+ ":" +:+
  ToZeroPaddedDecimalString (MinFromTime tv) 2 +:+ ":" +:+
  ToZeroPaddedDecimalString (SecFromTime tv) 2 +:+ "." +:+
  ToZeroPaddedDecimalString (msFromTime tv) 3 +:+ "Z".

Definition toISOString (tv : Z) : string :=
  isoDate tv +:+ String "T" (isoTime tv).

(** [s.split(sep)] for a one-character separator: element 0 of the
    resulting array, which always exists, and the elements after it. *)
Fixpoint split (sep : ascii) (s : string) : string * list string :=
  match s with
  | EmptyString => ("", [])
  | String c s' =>
      let '(x, xs) := split sep s' in
      if Ascii.eqb c sep then ("", x :: xs) else (String c x, xs)
  end.

(** [sep] does not occur in [s]. *)
Fixpoint freeOf (sep : ascii) (s : string) : bool :=
  match s with
  | EmptyString => true
  | String c s' => negb (Ascii.eqb c sep) && freeOf sep s'
  end.

Definition isDigit (c : ascii) : bool :=
  let n := N_of_ascii c in ((48 <=? n) && (n <=? 57))%N.

Definition digitOf (c : ascii) : Z := Z.of_N (N_of_ascii c) - 48.

(** A string of the form YYYY-MM-DD: ten characters, digits around two
    hyphens, a month from 01 to 12 and a day from 01 to 31. *)
Definition isCalendarDate (s : string) : bool :=
  match s with
  | String y1 (String y2 (String y3 (String y4 (String "-"
      (String m1 (String m2 (String "-" (String d1 (String d2 EmptyString))))))))) =>
      isDigit y1 && isDigit y2 && isDigit y3 && isDigit y4 &&
      isDigit m1 && isDigit m2 && isDigit d1 && isDigit d2 &&
      (1 <=? 10 * digitOf m1 + digitOf m2) && (10 * digitOf m1 + digitOf m2 <=? 12) &&
      (1 <=? 10 * digitOf d1 + digitOf d2) && (10 * digitOf d1 + digitOf d2 <=? 31)
  | _ => false
  end.

End JSDate.

(** ** The submitted form *)

(** An entry of a [FormData] is a string or a file. *)
Inductive FormDataEntryValue : Type :=
| FormString (s : string)
| FormFile (name : string).

Definition FormData : Type := list (string * FormDataEntryValue).

(** [formData.get(name)]: the first entry of that name; [None] is [null]. *)
Fixpoint FormData_get (name : string) (formData : FormData) : option FormDataEntryValue :=
  match formData with
  | [] => None
  | (k, v) :: rest => if String.eqb k name then Some v else FormData_get name rest
  end.

(** [Number(v)]: [null] is 0, a string is parsed, a [File] object is NaN. *)
Definition Number (v : option FormDataEntryValue) : float :=
  match v with
  | None => 0%float
  | Some (FormString s) => JS.StringToNumber s
  | Some (FormFile _) => nan
  end.

(** ** zod: the three field schemas, objects, [safeParse] and [flatten] *)

Module Zod.

Inductive ZodIssueCode : Type := invalid_type | invalid_enum_value | too_small.

Record ZodIssue : Type := {
  code : ZodIssueCode;
  path : list string;
  message : string
}.

(** A [ZodError] is the list of its issues. *)
Definition ZodError : Type := list ZodIssue.

Inductive ParseReturnType (A : Type) : Type :=
| OK (value : A)
| INVALID (issues : ZodError).
Arguments OK {A} value.
Arguments INVALID {A} issues.

Definition issuesOf {A : Type} (r : ParseReturnType A) : ZodError :=
  match r with
  | OK _ => []
  | INVALID issues => issues
  end.

Definition getParsedType (v : option FormDataEntryValue) : string :=
  match v with
  | None => "null"
  | Some (FormString _) => "string"
  | Some (FormFile _) => "object"
  end.

(** The message of an [invalid_type] issue: the schema's
    [invalid_type_error] when it has one, the default text otherwise. *)
Definition invalidTypeMessage (invalid_type_error : option string)
    (expected : string) (v : option FormDataEntryValue) : string :=
  match invalid_type_error with
  | Some m => m
  | None => "Expected " +:+ expected +:+ ", received " +:+ getParsedType v
  end.

(** [z.string({ invalid_type_error })]. *)
Record ZodString : Type := { string_invalid_type_error : option string }.

Definition parseString (def : ZodString) (key : string)
    (v : option FormDataEntryValue) : ParseReturnType string :=
  match v with
  | Some (FormString s) => OK s
  | _ => INVALID [ {| code := invalid_type; path := [key];
                      message := invalidTypeMessage (string_invalid_type_error def) "string" v |} ]
  end.

(** [z.coerce.number()], with the optional check [.gt(value, { message })]. *)
Record ZodNumber : Type := { gt : option (float * string) }.

Definition parseNumber (def : ZodNumber) (key : string)
    (v : option FormDataEntryValue) : ParseReturnType float :=
  let data := Number v in
  if is_nan data then
    INVALID [ {| code := invalid_type; path := [key];
                 message := "Expected number, received nan" |} ]
  else
    match gt def with
    | Some (value, msg) =>
        if (data <=? value)%float
        then INVALID [ {| code := too_small; path := [key]; message := msg |} ]
        else OK data
    | None => OK data
    end.

Definition joinValues (values : list string) : string :=
  String.concat " | " (map (fun v => "'" +:+ v +:+ "'") values).

(** [z.enum(values, { invalid_type_error })]. *)
Record ZodEnum : Type := {
  values : list string;
  enum_invalid_type_error : option string
}.

Definition parseEnum (def : ZodEnum) (key : string)
    (v : option FormDataEntryValue) : ParseReturnType string :=
  match v with
  | Some (FormString s) =>
      if bool_decide (s ∈ values def) then OK s
      else INVALID [ {| code := invalid_enum_value; path := [key];
                        message := "Invalid enum value. Expected " +:+ joinValues (values def)
                                   +:+ ", received '" +:+ s +:+ "'" |} ]
  | _ => INVALID [ {| code := invalid_type; path := [key];
                      message := invalidTypeMessage (enum_invalid_type_error def)
                                   (joinValues (values def)) v |} ]
  end.

(** The shape of [FormSchema] ... *)
Record FormShape : Type := {
  shape_id : ZodString;
  shape_customerId : ZodString;
  shape_amount : ZodNumber;
  shape_status : ZodEnum;
  shape_date : ZodString
}.

(** ... and of [FormSchema.omit({ id: true, date: true })]. *)
Record InvoiceShape : Type := {
  customerId_schema : ZodString;
  amount_schema : ZodNumber;
  status_schema : ZodEnum
}.

Definition omit_id_date (f : FormShape) : InvoiceShape :=
  {| customerId_schema := shape_customerId f;
     amount_schema := shape_amount f;
     status_schema := shape_status f |}.

(** The object literal handed to the parser. *)
Record RawInvoice : Type := {
  raw_customerId : option FormDataEntryValue;
  raw_amount : option FormDataEntryValue;
  raw_status : option FormDataEntryValue
}.

(** The parsed data. *)
Record InvoiceData : Type := {
  customerId : string;
  amount : float;
  status : string
}.

Inductive SafeParseReturnType : Type :=
| SafeParseSuccess (data : InvoiceData)
| SafeParseError (error : ZodError).

(** Every key of the shape is parsed, in the order of the shape, and the
    issues of all of them are collected. *)
Definition safeParse (schema : InvoiceShape) (input : RawInvoice) : SafeParseReturnType :=
  let c := parseString (customerId_schema schema) "customerId" (raw_customerId input) in
  let a := parseNumber (amount_schema schema) "amount" (raw_amount input) in
  let s := parseEnum (status_schema schema) "status" (raw_status input) in
  match c, a, s with
  | OK cv, OK av, OK sv =>
      SafeParseSuccess {| customerId := cv; amount := av; status := sv |}
  | _, _, _ => SafeParseError (issuesOf c ++ issuesOf a ++ issuesOf s)
  end.

(** [error.flatten().fieldErrors]: the messages of the issues, grouped by
    the first component of their path. *)
Definition flatten (error : ZodError) : gmap string (list string) :=
  foldl (fun fieldErrors sub =>
           match path sub with
           | k :: _ => <[k := default [] (fieldErrors !! k) ++ [message sub]]> fieldErrors
           | [] => fieldErrors
           end) ∅ error.

(** The first path component of every issue that has one, in order. *)
Definition issueKeys (error : ZodError) : list string :=
  omap (fun sub => head (path sub)) error.

(** The messages of the issues whose path starts with [k], in order. *)
Fixpoint messagesAt (k : string) (error : ZodError) : list string :=
  match error with
  | [] => []
  | sub :: rest =>
      match path sub with
      | k' :: _ => if String.eqb k' k then message sub :: messagesAt k rest
                   else messagesAt k rest
      | [] => messagesAt k rest
      end
  end.

(** The keys of the shape whose value the field schema rejects. *)
Definition invalidFields (schema : InvoiceShape) (input : RawInvoice) : list string :=
  (match parseString (customerId_schema schema) "customerId" (raw_customerId input) with
   | OK _ => [] | INVALID _ => ["customerId"] end) ++
  (match parseNumber (amount_schema schema) "amount" (raw_amount input) with
   | OK _ => [] | INVALID _ => ["amount"] end) ++
  (match parseEnum (status_schema schema) "status" (raw_status input) with
   | OK _ => [] | INVALID _ => ["status"] end).

End Zod.

(** ** The store, the exceptions and the observable events *)

(** The three statements the actions send. *)
Inductive Query : Type :=
| INSERT_INTO_invoices (customer_id : string) (amount : float) (status date : string)
| UPDATE_invoices (customer_id : string) (amount : float) (status : string) (id : string)
| DELETE_FROM_invoices (id : string).

(** What a [throw] carries: a [ZodError] from [parse], the error of the
    database client (its text), or the signal [redirect] throws. *)
Inductive Exn : Type :=
| ZodErr (error : Zod.ZodError)
| PostgresError (text : string)
| NEXT_REDIRECT (url : string).

(** The result object of an action ([State] in the later variant). *)
Record State : Type := {
  errors : option (gmap string (list string));
  message : option string
}.

(** What an invocation does, in order. [TryEnter], [TryLeave] and [Catch]
    mark the entry of a [try] block, its normal exit and the entry of its
    [catch] handler. *)
Inductive Event : Type :=
| TryEnter
| TryLeave
| Catch
| ClockRead (tv : Z)
| Wrote (q : Query)
| WriteFailed (q : Query) (text : string)
| ConsoleError (e : Exn)
| RevalidatePath (p : string)
| Redirect (url : string).

(** The database behind [sql]: a statement either raises an error, given
    by its text, or yields the next state of the store. *)
Class Database (Store : Type) : Type :=
  exec : Query -> Store -> string + Store.

Section Effects.
Context {Store : Type} `{!Database Store}.

(** An action reads the clock, threads the store, returns or throws, and
    leaves a trace of events. *)
Definition Action (A : Type) : Type :=
  Z -> Store -> (Exn + A) * Store * list Event.

Definition ret {A : Type} (a : A) : Action A :=
  fun _ st => (inr a, st, []).

Definition throw {A : Type} (e : Exn) : Action A :=
  fun _ st => (inl e, st, []).

Definition bind {A B : Type} (m : Action A) (k : A -> Action B) : Action B :=
  fun clk st =>
    match m clk st with
    | (inr a, st', tr) =>
        let '(r, st'', tr') := k a clk st' in (r, st'', tr ++ tr')
    | (inl e, st', tr) => (inl e, st', tr)
    end.

(** [try { body } catch (error) { handler }]: the handler receives
    whatever the body throws, the redirect signal included. *)
Definition try_catch {A : Type} (body : Action A) (handler : Exn -> Action A) : Action A :=
  fun clk st =>
    match body clk st with
    | (inr a, st', tr) => (inr a, st', TryEnter :: tr ++ [TryLeave])
    | (inl e, st', tr) =>
        let '(r, st'', tr') := handler e clk st' in
        (r, st'', TryEnter :: tr ++ Catch :: tr')
    end.

(** [await sql`...`]. *)
Definition sql (q : Query) : Action unit :=
  fun _ st =>
    match exec q st with
    | inr st' => (inr tt, st', [Wrote q])
    | inl text => (inl (PostgresError text), st, [WriteFailed q text])
    end.

(** [new Date()]: the time value of the clock. *)
Definition newDate : Action Z :=
  fun clk st => (inr clk, st, [ClockRead clk]).

Definition console_error (e : Exn) : Action unit :=
  fun _ st => (inr tt, st, [ConsoleError e]).

Definition revalidatePath (p : string) : Action unit :=
  fun _ st => (inr tt, st, [RevalidatePath p]).

(** [redirect(url)] never returns: it throws the redirect signal. *)
Definition redirect {A : Type} (url : string) : Action A :=
  fun _ st => (inl (NEXT_REDIRECT url), st, [Redirect url]).

(** [schema.parse(input)]: the data, or a thrown [ZodError]. *)
Definition parse (schema : Zod.InvoiceShape) (input : Zod.RawInvoice) : Action Zod.InvoiceData :=
  match Zod.safeParse schema input with
  | Zod.SafeParseSuccess data => ret data
  | Zod.SafeParseError error => throw (ZodErr error)
  end.

End Effects.

Declare Scope action_scope.
Delimit Scope action_scope with action.
Notation "'let*' x ':=' m 'in' k" := (bind m (fun x => k))
  (at level 10, x name, m at level 100, k at level 200) : action_scope.
Notation "m '>>' k" := (bind m (fun _ => k))
  (at level 100, k at level 200, right associativity) : action_scope.

(** The object literal both variants build from the form. *)
Definition rawInvoice (formData : FormData) : Zod.RawInvoice :=
  {| Zod.raw_customerId := FormData_get "customerId" formData;
     Zod.raw_amount := FormData_get "amount" formData;
     Zod.raw_status := FormData_get "status" formData |}.

(** ** The earlier variant of the actions ([src/unnamed/part_003]) *)

Module Earlier.

Definition FormSchema : Zod.FormShape :=
  {| Zod.shape_id := {| Zod.string_invalid_type_error := None |};
     Zod.shape_customerId := {| Zod.string_invalid_type_error := None |};
     Zod.shape_amount := {| Zod.gt := None |};
     Zod.shape_status := {| Zod.values := ["pending"; "paid"];
                            Zod.enum_invalid_type_error := None |};
     Zod.shape_date := {| Zod.string_invalid_type_error := None |} |}.

Definition CreateInvoice : Zod.InvoiceShape := Zod.omit_id_date FormSchema.
Definition UpdateInvoice : Zod.InvoiceShape := Zod.omit_id_date FormSchema.

Section Actions.
Context {Store : Type} `{!Database Store}.
Local Open Scope action_scope.

(** The [try] block covers parsing and the write; its handler logs and
    returns, which is the [Some] below; the code after the block runs
    only when the block ended normally. *)
Definition createInvoice (formData : FormData) : Action State :=
  let* caught :=
    try_catch
      (let* data := parse CreateInvoice (rawInvoice formData) in
       let amountInCents := (Zod.amount data * 100)%float in
       let* now := newDate in
       let date := (JSDate.split "T" (JSDate.toISOString now)).1 in
       sql (INSERT_INTO_invoices (Zod.customerId data) amountInCents (Zod.status data) date) >>
       ret None)
      (fun error =>
         console_error error >>
         ret (Some {| errors := None;
                      message := Some "Database Error: Failed to Create Invoice." |})) in
  match caught with
  | Some result => ret result
  | None =>
      revalidatePath "/dashboard/invoices" >>
      redirect "/dashboard/invoices"
  end.

Definition updateInvoice (id : string) (formData : FormData) : Action State :=
  let* caught :=
    try_catch
      (let* data := parse UpdateInvoice (rawInvoice formData) in
       let amountInCents := (Zod.amount data * 100)%float in
       sql (UPDATE_invoices (Zod.customerId data) amountInCents (Zod.status data) id) >>
       ret None)
      (fun error =>
         console_error error >>
         ret (Some {| errors := None;
                      message := Some "Database Error: Failed to Update Invoice." |})) in
  match caught with
  | Some result => ret result
  | None =>
      revalidatePath "/dashboard/invoices" >>
      redirect "/dashboard/invoices"
  end.

Definition deleteInvoice (id : string) : Action State :=
  try_catch
    (sql (DELETE_FROM_invoices id) >>
     revalidatePath "/dashboard/invoices" >>
     ret {| errors := None; message := Some "Invoice deleted successfully." |})
    (fun err =>
       console_error err >>
       ret {| errors := None;
              message := Some "Database Error: Failed to Delete Invoice." |}).

End Actions.
End Earlier.

(** ** The later variant of the actions ([src/unnamed/part_004]) *)

Module Later.

Definition FormSchema : Zod.FormShape :=
  {| Zod.shape_id := {| Zod.string_invalid_type_error := None |};
     Zod.shape_customerId :=
       {| Zod.string_invalid_type_error := Some "Please select a customer." |};
     Zod.shape_amount :=
       {| Zod.gt := Some (0%float, "Please enter an amount greater than $0.") |};
     Zod.shape_status :=
       {| Zod.values := ["pending"; "paid"];
          Zod.enum_invalid_type_error := Some "Please select an invoice status." |};
     Zod.shape_date := {| Zod.string_invalid_type_error := None |} |}.

Definition CreateInvoice : Zod.InvoiceShape := Zod.omit_id_date FormSchema.
Definition UpdateInvoice : Zod.InvoiceShape := Zod.omit_id_date FormSchema.

Section Actions.
Context {Store : Type} `{!Database Store}.
Local Open Scope action_scope.

Definition createInvoice (prevState : State) (formData : FormData) : Action State :=
  let validatedFields := Zod.safeParse CreateInvoice (rawInvoice formData) in
  match validatedFields with
  | Zod.SafeParseError error =>
      ret {| errors := Some (Zod.flatten error);
             message := Some "Missing Fields. Failed to Create Invoice." |}
  | Zod.SafeParseSuccess data =>
      let amountInCents := (Zod.amount data * 100)%float in
      let* now := newDate in
      let date := (JSDate.split "T" (JSDate.toISOString now)).1 in
      try_catch
        (sql (INSERT_INTO_invoices (Zod.customerId data) amountInCents (Zod.status data) date))
        (fun error => console_error error >> throw error) >>
      revalidatePath "/dashboard/invoices" >>
      redirect "/dashboard/invoices"
  end.

Definition updateInvoice (id : string) (formData : FormData) : Action unit :=
  try_catch
    (let* data := parse UpdateInvoice (rawInvoice formData) in
     let amountInCents := (Zod.amount data * 100)%float in
     sql (UPDATE_invoices (Zod.customerId data) amountInCents (Zod.status data) id))
    (fun error => console_error error >> throw error) >>
  revalidatePath "/dashboard/invoices" >>
  redirect "/dashboard/invoices".

Definition deleteInvoice (id : string) : Action unit :=
  try_catch
    (sql (DELETE_FROM_invoices id) >>
     revalidatePath "/dashboard/invoices")
    (fun err => console_error err >> throw err).

End Actions.
End Later.

(** ** The statements written and the order of the signals *)

(** The statement [createInvoice] sends for parsed data at clock [now]. *)
Definition insertStatement (data : Zod.InvoiceData) (now : Z) : Query :=
  INSERT_INTO_invoices (Zod.customerId data) (Zod.amount data * 100)%float
    (Zod.status data) (JSDate.split "T" (JSDate.toISOString now)).1.

(** The statement [updateInvoice] sends for parsed data and the bound [id]. *)
Definition updateStatement (data : Zod.InvoiceData) (id : string) : Query :=
  UPDATE_invoices (Zod.customerId data) (Zod.amount data * 100)%float
    (Zod.status data) id.

(** Scans a trace, with the number of [try] blocks that are open, whether
    a write has succeeded and whether a write has failed or a handler has
    been entered: every cache or navigation signal stands outside all
    [try] blocks, after a successful write and with no failure before it. *)
Fixpoint signalsFollowWrite (depth : nat) (wrote failed : bool) (tr : list Event) : bool :=
  match tr with
  | [] => true
  | e :: tr' =>
      match e with
      | TryEnter => signalsFollowWrite (S depth) wrote failed tr'
      | TryLeave => signalsFollowWrite (pred depth) wrote failed tr'
      | Catch => signalsFollowWrite (pred depth) wrote true tr'
      | Wrote _ => signalsFollowWrite depth true failed tr'
      | WriteFailed _ _ => signalsFollowWrite depth wrote true tr'
      | RevalidatePath _ | Redirect _ =>
          Nat.eqb depth 0 && wrote && negb failed &&
          signalsFollowWrite depth wrote failed tr'
      | ClockRead _ | ConsoleError _ => signalsFollowWrite depth wrote failed tr'
      end
  end.

Definition isSignal (e : Event) : bool :=
  match e with
  | RevalidatePath _ | Redirect _ => true
  | _ => false
  end.

Definition isWriteFailed (e : Event) : bool :=
  match e with
  | WriteFailed _ _ => true
  | _ => false
  end.

(** A trace with a failed write has no cache or navigation signal. *)
Definition failedWriteSilences (tr : list Event) : bool :=
  implb (existsb isWriteFailed tr) (negb (existsb isSignal tr)).

(** What the actions compute as the amount in cents for the amount of
    [n] hundredths, written with two decimals: the binary64 nearest to
    [n / 100], times 100. *)
Definition centsOfHundredths (n : Z) : float :=
  (JS.roundMV false n (-2) * 100)%float.

(** ** A store with one table *)

Module Pg.

Record InvoiceRow : Type := {
  id : string;
  customer_id : string;
  amount : float;
  status : string;
  date : string
}.

(** The table, the serial from which the next identifier is generated,
    and the failure, if any, every statement meets (its error text). *)
Record Postgres : Type := {
  invoices : list InvoiceRow;
  serial : Z;
  outage : option string
}.

Definition run (q : Query) (pg : Postgres) : Postgres :=
  match q with
  | INSERT_INTO_invoices c a s d =>
      {| invoices := invoices pg ++
                     [ {| id := JSDate.ToString (serial pg); customer_id := c;
                          amount := a; status := s; date := d |} ];
         serial := serial pg + 1;
         outage := outage pg |}
  | UPDATE_invoices c a s i =>
      {| invoices := map (fun r => if String.eqb (id r) i
                                   then {| id := id r; customer_id := c; amount := a;
                                           status := s; date := date r |}
                                   else r) (invoices pg);
         serial := serial pg;
         outage := outage pg |}
  | DELETE_FROM_invoices i =>
      {| invoices := filter (fun r => id r ≠ i) (invoices pg);
         serial := serial pg;
         outage := outage pg |}
  end.

#[global] Instance database : Database Postgres :=
  fun q pg =>
    match outage pg with
    | Some text => inl text
    | None => inr (run q pg)
    end.

End Pg.

(** ** Sample inputs *)

Module Sample.

(** 2025-12-05T14:30:00.000Z. *)
Definition clock : Z := 1764945000000.

Definition row : Pg.InvoiceRow :=
  {| Pg.id := "inv-1"; Pg.customer_id := "c0"; Pg.amount := 100%float;
     Pg.status := "pending"; Pg.date := "2025-01-01" |}.

Definition healthy : Pg.Postgres :=
  {| Pg.invoices := [row]; Pg.serial := 7; Pg.outage := None |}.

Definition down : Pg.Postgres :=
  {| Pg.invoices := [row]; Pg.serial := 7;
     Pg.outage := Some "connect ECONNREFUSED 10.0.0.5:5432" |}.

Definition prevState : State := {| errors := None; message := None |}.

(** A well-formed submission with the given amount. *)
Definition form (amount : string) : FormData :=
  [("customerId", FormString "c1"); ("amount", FormString amount);
   ("status", FormString "paid")].

(** A submission whose amount and status are both rejected. *)
Definition twoInvalid : FormData :=
  [("customerId", FormString "c1"); ("amount", FormString "0");
   ("status", FormString "draft")].

(** The two issues of [twoInvalid] under the later schema. *)
Definition twoIssues : Zod.ZodError :=
  [ {| Zod.code := Zod.too_small; Zod.path := ["amount"];
       Zod.message := "Please enter an amount greater than $0." |};
    {| Zod.code := Zod.invalid_enum_value; Zod.path := ["status"];
       Zod.message := "Invalid enum value. Expected 'pending' | 'paid', received 'draft'" |} ].

End Sample.

(** ** What a trace says about the statements sent *)

(** The statement an event reports as sent, whether it succeeded or not. *)
Definition attempted (e : Event) : option Query :=
  match e with
  | Wrote q | WriteFailed q _ => Some q
  | _ => None
  end.

(** The statement an event reports as carried out. *)
Definition written (e : Event) : option Query :=
  match e with
  | Wrote q => Some q
  | _ => None
  end.


(** What an event reports as logged with [console.error]. *)
Definition logged (e : Event) : option Exn :=
  match e with
  | ConsoleError x => Some x
  | _ => None
  end.

(** The names of the entries the actions read from a form. *)
Definition readNames : list string := ["customerId"; "amount"; "status"].

(** An entry the actions never read: its name is none of the three, or an
    entry of that name stands before it in the form. *)
Definition neverRead (before : FormData) (name : string) : Prop :=
  name ∉ readNames \/ is_Some (FormData_get name before).

(** Every code unit of [s] is white space. *)
Fixpoint isBlank (s : string) : bool :=
  match s with
  | EmptyString => true
  | String c s' => JS.isStrWhiteSpaceChar c && isBlank s'
  end.

(** ** Signing in: [getUser] and [authorize] ([src/unnamed/part_000]) *)

Module Auth.

(** A property of the credentials object, of type [unknown]: absent, a
    string, or a value of another type. *)
Inductive Unknown : Type :=
| Undefined
| Str (s : string)
| NotAString.

Record Credentials : Type := {
  email : Unknown;
  password : Unknown
}.

(** [new Error(message)]. *)
Inductive Thrown : Type := Error (message : string).

(** What a sign-in attempt does, in order: the query for the user (with
    the store's error text when it fails), the console output and the
    comparison of a password with a hash. *)
Inductive Event : Type :=
| Selected (email : string)
| SelectFailed (email text : string)
| ConsoleError (label text : string)
| ConsoleLog (text : string)
| BcryptCompare (data hash : string).

Section Authorize.

(** The rows of the users table, of which the code reads the password
    hash; the query [SELECT * FROM users WHERE email = ...], which yields
    rows or fails with an error text; the email format zod checks; and
    [bcrypt.compare]. *)
Context {User Store : Type}.
Context (user_password : User -> string).
Context (select_users : string -> Store -> string + list User).
Context (isEmail : string -> bool).
Context (bcrypt_compare : string -> string -> bool).

(** [getUser(email)]: row 0 of the result, [None] ([undefined]) when
    there is none; a failed query is logged with its error and replaced
    by a new error. *)
Definition getUser (email : string) (st : Store) : (Thrown + option User) * list Event :=
  match select_users email st with
  | inr user => (inr (head user), [Selected email])
  | inl error =>
      (inl (Error "Failed to fetch user."),
       [SelectFailed email error; ConsoleError "Failed to fetch user:" error])
  end.

(** [z.object({ email: z.string().email(), password: z.string().min(6) })
    .safeParse(credentials)]: the data on success, [None] otherwise. *)
Definition parsedCredentials (credentials : option Credentials) : option (string * string) :=
  match credentials with
  | Some {| email := Str e; password := Str p |} =>
      if isEmail e && negb (String.length p <? 6)%nat then Some (e, p) else None
  | _ => None
  end.

(** [authorize(credentials)]: the user, or [None] for [null]. *)
Definition authorize (credentials : option Credentials) (st : Store)
    : (Thrown + option User) * list Event :=
  match parsedCredentials credentials with
  | Some (email, password) =>
      match getUser email st with
      | (inl thrown, tr) => (inl thrown, tr)
      | (inr None, tr) => (inr None, tr)
      | (inr (Some user), tr) =>
          let passwordsMatch := bcrypt_compare password (user_password user) in
          if passwordsMatch
          then (inr (Some user), tr ++ [BcryptCompare password (user_password user)])
          else (inr None,
                tr ++ [BcryptCompare password (user_password user);
                       ConsoleLog "Invalid credentials"])
      end
  | None => (inr None, [ConsoleLog "Invalid credentials"])
  end.

End Authorize.

(** Sample users: a row, a table keyed by email, an email check and a
    comparison that stand in for the real ones. *)
Record SampleUser : Type := {
  user_email : string;
  user_hash : string
}.

Definition sampleUsers : list SampleUser :=
  [ {| user_email := "user@nextmail.com"; user_hash := "hash(123456)" |};
    {| user_email := "user@nextmail.com"; user_hash := "hash(second row)" |} ].

Definition sampleSelect (email : string) (table : option (list SampleUser))
    : string + list SampleUser :=
  match table with
  | Some rows => inr (filter (fun u => user_email u = email) rows)
  | None => inl "connect ECONNREFUSED 10.0.0.5:5432"
  end.

Definition sampleIsEmail (s : string) : bool :=
  match String.index 0 "@" s with
  | Some _ => true
  | None => false
  end.

Definition sampleCompare (data hash : string) : bool :=
  String.eqb ("hash(" +:+ data +:+ ")") hash.

End Auth.

(** ** The Gregorian calendar, as ECMA-262 defines day and year numbers *)

Module Gregorian.

(** The day number of 1 January of year [y] (day 0 is 1970-01-01). *)
Definition DayFromYear (y : Z) : Z :=
  365 * (y - 1970) + (y - 1969) / 4 - (y - 1901) / 100 + (y - 1601) / 400.

Definition InLeapYear (y : Z) : bool :=
  ((y mod 4 =? 0) && negb (y mod 100 =? 0)) || (y mod 400 =? 0).

(** The length of month [m] (1 to 12). *)
Definition DaysInMonth (leap : bool) (m : Z) : Z :=
  if m =? 2 then (if leap then 29 else 28)
  else if (m =? 4) || (m =? 6) || (m =? 9) || (m =? 11) then 30
  else 31.

(** The number of days in the first [months] months of a year. *)
Fixpoint daysBefore (leap : bool) (months : nat) : Z :=
  match months with
  | O => 0
  | S k => daysBefore leap k + DaysInMonth leap (Z.of_nat (S k))
  end.

(** The day number of day [d] of month [m] of year [y]. *)
Definition dayOfDate (y m d : Z) : Z :=
  DayFromYear y + daysBefore (InLeapYear y) (Z.to_nat (m - 1)) + (d - 1).

Definition leapDay (y : Z) : Z := if InLeapYear y then 1 else 0.

(** The year, month and day a text of the form YYYY-MM-DD spells. *)
Definition readCalendarDate (s : string) : option (Z * Z * Z) :=
  match s with
  | String y1 (String y2 (String y3 (String y4 (String "-"
      (String m1 (String m2 (String "-" (String d1 (String d2 EmptyString))))))))) =>
      if forallb JSDate.isDigit [y1; y2; y3; y4; m1; m2; d1; d2]
      then Some (1000 * JSDate.digitOf y1 + 100 * JSDate.digitOf y2 +
                 10 * JSDate.digitOf y3 + JSDate.digitOf y4,
                 10 * JSDate.digitOf m1 + JSDate.digitOf m2,
                 10 * JSDate.digitOf d1 + JSDate.digitOf d2)
      else None
  | _ => None
  end.

End Gregorian.

(** ** A store that refuses inserts *)

Module Fk.

(** The statements carried out so far. *)
Record Journal : Type := { carried : list Query }.

(** Every INSERT fails, as on a customer id that the customers table
    does not have; every other statement is carried out. *)
#[global] Instance database : Database Journal :=
  fun q st =>
    match q with
    | INSERT_INTO_invoices _ _ _ _ =>
        inl "insert or update on table invoices violates foreign key constraint"
    | _ => inr {| carried := carried st ++ [q] |}
    end.

Definition empty : Journal := {| carried := [] |}.

End Fk.

(** ** The fixed results and the proof tactics *)

Definition databaseErrorCreate : State :=
  {| errors := None; message := Some "Database Error: Failed to Create Invoice." |}.
Definition databaseErrorUpdate : State :=
  {| errors := None; message := Some "Database Error: Failed to Update Invoice." |}.
Definition databaseErrorDelete : State :=
  {| errors := None; message := Some "Database Error: Failed to Delete Invoice." |}.
Definition deletedSuccessfully : State :=
  {| errors := None; message := Some "Invoice deleted successfully." |}.
Definition missingFieldsCreate (fieldErrors : gmap string (list string)) : State :=
  {| errors := Some fieldErrors;
     message := Some "Missing Fields. Failed to Create Invoice." |}.

(** Linear arithmetic with division and remainder by constants. *)
Ltac div_lia := Z.to_euclidean_division_equations; lia.

(** Evaluates the closed month arithmetic of the calendar algorithm. *)
Ltac eval_closed t := let v := eval vm_compute in t in change t with v.
Ltac eval_month :=
  repeat match goal with
         | |- context [(153 * ?k + 2) / 5] => eval_closed ((153 * k + 2) / 5)
         | |- context [if ?k <? 10 then ?a else ?b] => eval_closed (if k <? 10 then a else b)
         | |- context [?m <=? 2] => eval_closed (m <=? 2)
         | |- context [Gregorian.DaysInMonth ?l ?m] => eval_closed (Gregorian.DaysInMonth l m)
         | |- context [Gregorian.daysBefore ?l ?n] => eval_closed (Gregorian.daysBefore l n)
         end; cbv beta iota.

(** Settles a goal about a decimal digit [k], given [H : 0 <= k <= 9],
    once the ten cases of [k] are listed by [cases]. *)
Ltac by_digit_cases cases H :=
  apply cases in H;
  repeat (destruct H as [H | H]; [subst; reflexivity |]); subst; reflexivity.

(** Runs an action symbolically; [H] rewrites the parse or the store step. *)
Ltac run_action H :=
  unfold Earlier.createInvoice, Earlier.updateInvoice, Earlier.deleteInvoice,
    Later.createInvoice, Later.updateInvoice, Later.deleteInvoice,
    bind, try_catch, parse, newDate, sql, console_error, revalidatePath,
    redirect, ret, throw, insertStatement, updateStatement in *;
  repeat (rewrite H; simpl);
  try reflexivity.

(** * Properties *)

(** ** The runtime model on concrete inputs *)

Example StringToNumber_numeric_literals :
  JS.StringToNumber "49.99" = 0x1.8feb851eb851fp+5%float /\
  JS.StringToNumber "  42 " = 42%float /\
  JS.StringToNumber "" = 0%float /\
  JS.StringToNumber "1e3" = 1000%float /\
  JS.StringToNumber "-.5" = (-0.5)%float /\
  JS.StringToNumber "5.e-1" = 0.5%float /\
  JS.StringToNumber "0x1F" = 31%float /\
  JS.StringToNumber "1e400" = infinity /\
  JS.StringToNumber "-Infinity" = neg_infinity /\
  JS.StringToNumber "0.1" = 0x1.999999999999ap-4%float /\
  JS.StringToNumber "9007199254740993" = 9007199254740992%float.
Proof. repeat split; vm_compute; reflexivity. Qed.

Example StringToNumber_not_numeric :
  JS.StringToNumber "abc" = nan /\
  JS.StringToNumber "12px" = nan /\
  JS.StringToNumber "." = nan /\
  JS.StringToNumber "1e" = nan /\
  JS.StringToNumber "+" = nan /\
  JS.StringToNumber "-0x10" = nan /\
  JS.StringToNumber "1 2" = nan.
Proof. repeat split; vm_compute; reflexivity. Qed.

Example Number_of_form_values :
  Number None = 0%float /\
  Number (Some (FormString "10.50")) = 10.5%float /\
  Number (Some (FormFile "receipt.png")) = nan.
Proof. repeat split; vm_compute; reflexivity. Qed.

Example toISOString_samples :
  JSDate.toISOString 1764945000000 = "2025-12-05T14:30:00.000Z" /\
  JSDate.toISOString 0 = "1970-01-01T00:00:00.000Z" /\
  JSDate.toISOString (-1) = "1969-12-31T23:59:59.999Z" /\
  JSDate.toISOString 951782400000 = "2000-02-29T00:00:00.000Z" /\
  JSDate.toISOString 253402300799999 = "9999-12-31T23:59:59.999Z" /\
  JSDate.toISOString 253402300800000 = "+010000-01-01T00:00:00.000Z" /\
  JSDate.toISOString (-62167219200000) = "0000-01-01T00:00:00.000Z" /\
  JSDate.toISOString (-62167219200001) = "-000001-12-31T23:59:59.999Z".
Proof. repeat split; vm_compute; reflexivity. Qed.

Example split_samples :
  JSDate.split "T" "2025-12-05T14:30:00.000Z" = ("2025-12-05", ["14:30:00.000Z"]) /\
  JSDate.split "T" "aTbTT" = ("a", ["b"; ""; ""]) /\
  JSDate.split "T" "abc" = ("abc", []).
Proof. repeat split; reflexivity. Qed.

Example safeParse_samples :
  Zod.safeParse Later.CreateInvoice (rawInvoice (Sample.form "49.99")) =
    Zod.SafeParseSuccess {| Zod.customerId := "c1"; Zod.amount := 0x1.8feb851eb851fp+5%float;
                            Zod.status := "paid" |} /\
  Zod.safeParse Later.CreateInvoice (rawInvoice Sample.twoInvalid) =
    Zod.SafeParseError Sample.twoIssues /\
  Zod.safeParse Later.CreateInvoice (rawInvoice []) =
    Zod.SafeParseError
      [ {| Zod.code := Zod.invalid_type; Zod.path := ["customerId"];
           Zod.message := "Please select a customer." |};
        {| Zod.code := Zod.too_small; Zod.path := ["amount"];
           Zod.message := "Please enter an amount greater than $0." |};
        {| Zod.code := Zod.invalid_type; Zod.path := ["status"];
           Zod.message := "Please select an invoice status." |} ] /\
  Zod.safeParse Earlier.CreateInvoice (rawInvoice [("amount", FormString "abc")]) =
    Zod.SafeParseError
      [ {| Zod.code := Zod.invalid_type; Zod.path := ["customerId"];
           Zod.message := "Expected string, received null" |};
        {| Zod.code := Zod.invalid_type; Zod.path := ["amount"];
           Zod.message := "Expected number, received nan" |};
        {| Zod.code := Zod.invalid_type; Zod.path := ["status"];
           Zod.message := "Expected 'pending' | 'paid', received null" |} ].
Proof. repeat split; vm_compute; reflexivity. Qed.

(** ** Calendar dates *)

Lemma yoe_bounds (doe : Z) :
  0 <= doe <= 146096 ->
  let yoe := (doe - doe / 1460 + doe / 36524 - doe / 146096) / 365 in
  let doy := doe - (365 * yoe + yoe / 4 - yoe / 100) in
  0 <= yoe <= 399 /\ 0 <= doy <= 365 /\
  (146037 <= doe <-> yoe = 399 /\ 306 <= doy).
Proof.
  intros H yoe doy. subst doy yoe.
  assert (H3 : doe / 146096 = 0 \/ doe = 146096) by div_lia.
  destruct H3 as [H3 | ->]; [| vm_compute; intuition congruence].
  rewrite H3.
  assert (Hc : doe / 36524 = 0 \/ doe / 36524 = 1 \/
               doe / 36524 = 2 \/ doe / 36524 = 3) by div_lia.
  destruct Hc as [Hc | [Hc | [Hc | Hc]]]; rewrite Hc; div_lia.
Qed.

Lemma dateOfEra_range (doe : Z) :
  0 <= doe <= 146096 ->
  let '(y, m, d) := JSDate.dateOfEra doe in
  0 <= y <= 400 /\ 1 <= m <= 12 /\ 1 <= d <= 31 /\ (y = 400 <-> 146037 <= doe).
Proof.
  intros H. unfold JSDate.dateOfEra.
  pose proof (yoe_bounds doe H) as Hb. cbv zeta in Hb.
  set (yoe := (doe - doe / 1460 + doe / 36524 - doe / 146096) / 365) in *.
  set (doy := doe - (365 * yoe + yoe / 4 - yoe / 100)) in *.
  destruct Hb as (Hy & Hd & Hlast).
  set (mp := (5 * doy + 2) / 153).
  assert (Hmp : 0 <= mp <= 11) by (unfold mp; div_lia).
  assert (Hmp10 : 10 <= mp <-> 306 <= doy) by (unfold mp; div_lia).
  assert (Hday : 1 <= doy - (153 * mp + 2) / 5 + 1 <= 31) by (unfold mp; div_lia).
  destruct (Z.ltb_spec mp 10) as [Hlt | Hge].
  - destruct (Z.leb_spec (mp + 3) 2); repeat split; lia.
  - destruct (Z.leb_spec (mp - 9) 2); repeat split; lia.
Qed.

Lemma civilFromDay_range (day : Z) :
  -719528 <= day <= 2932896 ->
  let '(y, m, d) := JSDate.civilFromDay day in
  0 <= y <= 9999 /\ 1 <= m <= 12 /\ 1 <= d <= 31.
Proof.
  intros H. unfold JSDate.civilFromDay.
  set (z := day + 719468).
  assert (Hdoe : 0 <= z mod 146097 <= 146096) by div_lia.
  pose proof (dateOfEra_range (z mod 146097) Hdoe) as Hr.
  destruct (JSDate.dateOfEra (z mod 146097)) as [[y m] d].
  destruct Hr as (Hy & Hm & Hd & Hlast).
  assert (Hera : -1 <= z / 146097 <= 24) by (unfold z; div_lia).
  assert (Hlo : z / 146097 = -1 -> 146037 <= z mod 146097) by (unfold z; div_lia).
  assert (Hhi : z / 146097 = 24 -> z mod 146097 < 146037) by (unfold z; div_lia).
  repeat split; lia.
Qed.

Lemma Day_range (tv : Z) :
  -62167219200000 <= tv <= 253402300799999 ->
  -719528 <= JSDate.Day tv <= 2932896.
Proof. unfold JSDate.Day, JSDate.msPerDay. intros H. div_lia. Qed.

Lemma decimalDigits_lt10 (fuel : nat) (n : Z) (acc : string) :
  0 <= n < 10 ->
  JSDate.decimalDigits fuel n acc = String (JSDate.digitChar n) acc.
Proof.
  intros H. destruct fuel; simpl; rewrite Z.mod_small by lia; [reflexivity |].
  destruct (Z.ltb_spec n 10); [reflexivity | lia].
Qed.

Lemma decimalDigits_ge10 (fuel : nat) (n : Z) (acc : string) :
  10 <= n ->
  JSDate.decimalDigits (S fuel) n acc =
  JSDate.decimalDigits fuel (n / 10) (String (JSDate.digitChar (n mod 10)) acc).
Proof.
  intros H. simpl. destruct (Z.ltb_spec n 10); [lia | reflexivity].
Qed.

Lemma log2_lower (k n : Z) : 0 < k -> k <= n -> Z.log2 k <= Z.log2 n.
Proof. intros ? ?. apply Z.log2_le_mono. assumption. Qed.

Lemma ToString_1 (n : Z) :
  0 <= n < 10 -> JSDate.ToString n = String (JSDate.digitChar n) "".
Proof. intros H. unfold JSDate.ToString. apply decimalDigits_lt10, H. Qed.

Lemma ToString_2 (n : Z) :
  10 <= n < 100 ->
  JSDate.ToString n =
  String (JSDate.digitChar (n / 10)) (String (JSDate.digitChar (n mod 10)) "").
Proof.
  intros H. unfold JSDate.ToString.
  pose proof (log2_lower 10 n ltac:(lia) ltac:(lia)) as Hl.
  change (Z.log2 10) with 3 in Hl.
  destruct (Z.to_nat (Z.log2 n)) as [| f] eqn:E; [lia |].
  rewrite decimalDigits_ge10 by lia.
  apply decimalDigits_lt10. div_lia.
Qed.

Lemma ToString_3 (n : Z) :
  100 <= n < 1000 ->
  JSDate.ToString n =
  String (JSDate.digitChar (n / 100))
    (String (JSDate.digitChar (n / 10 mod 10)) (String (JSDate.digitChar (n mod 10)) "")).
Proof.
  intros H. unfold JSDate.ToString.
  pose proof (log2_lower 100 n ltac:(lia) ltac:(lia)) as Hl.
  change (Z.log2 100) with 6 in Hl.
  destruct (Z.to_nat (Z.log2 n)) as [| [| f]] eqn:E; [lia | lia |].
  rewrite decimalDigits_ge10 by lia.
  rewrite decimalDigits_ge10 by div_lia.
  rewrite decimalDigits_lt10 by div_lia.
  replace (n / 10 / 10) with (n / 100) by div_lia. reflexivity.
Qed.

Lemma ToString_4 (n : Z) :
  1000 <= n < 10000 ->
  JSDate.ToString n =
  String (JSDate.digitChar (n / 1000))
    (String (JSDate.digitChar (n / 100 mod 10))
       (String (JSDate.digitChar (n / 10 mod 10)) (String (JSDate.digitChar (n mod 10)) ""))).
Proof.
  intros H. unfold JSDate.ToString.
  pose proof (log2_lower 1000 n ltac:(lia) ltac:(lia)) as Hl.
  change (Z.log2 1000) with 9 in Hl.
  destruct (Z.to_nat (Z.log2 n)) as [| [| [| f]]] eqn:E; [lia | lia | lia |].
  rewrite decimalDigits_ge10 by lia.
  rewrite decimalDigits_ge10 by div_lia.
  rewrite decimalDigits_ge10 by div_lia.
  rewrite decimalDigits_lt10 by div_lia.
  replace (n / 10 / 10 / 10) with (n / 1000) by div_lia.
  replace (n / 10 / 10) with (n / 100) by div_lia. reflexivity.
Qed.

(** Two digits for a number below 100. *)
Lemma pad2_digits (n : Z) :
  0 <= n <= 99 ->
  JSDate.ToZeroPaddedDecimalString n 2 =
  String (JSDate.digitChar (n / 10)) (String (JSDate.digitChar (n mod 10)) "").
Proof.
  intros H. unfold JSDate.ToZeroPaddedDecimalString.
  destruct (Z.lt_ge_cases n 10) as [Hs | Hb].
  - rewrite ToString_1 by lia. simpl.
    replace (n / 10) with 0 by div_lia. rewrite Z.mod_small by lia. reflexivity.
  - rewrite ToString_2 by lia. reflexivity.
Qed.

(** Four digits for a number below 10000. *)
Lemma pad4_digits (n : Z) :
  0 <= n <= 9999 ->
  JSDate.ToZeroPaddedDecimalString n 4 =
  String (JSDate.digitChar (n / 1000))
    (String (JSDate.digitChar (n / 100 mod 10))
       (String (JSDate.digitChar (n / 10 mod 10)) (String (JSDate.digitChar (n mod 10)) ""))).
Proof.
  intros H. unfold JSDate.ToZeroPaddedDecimalString.
  destruct (Z.lt_ge_cases n 10) as [H1 | H1];
    [| destruct (Z.lt_ge_cases n 100) as [H2 | H2];
       [| destruct (Z.lt_ge_cases n 1000) as [H3 | H3]]].
  - rewrite ToString_1 by lia. simpl.
    replace (n / 1000) with 0 by div_lia. replace (n / 100) with 0 by div_lia.
    replace (n / 10) with 0 by div_lia. rewrite (Z.mod_small n 10) by lia. reflexivity.
  - rewrite ToString_2 by lia. simpl.
    replace (n / 1000) with 0 by div_lia. replace (n / 100) with 0 by div_lia.
    rewrite (Z.mod_small (n / 10) 10) by div_lia. reflexivity.
  - rewrite ToString_3 by lia. simpl.
    replace (n / 1000) with 0 by div_lia.
    rewrite (Z.mod_small (n / 100) 10) by div_lia. reflexivity.
  - rewrite ToString_4 by lia. reflexivity.
Qed.

Lemma digit_cases (k : Z) :
  0 <= k <= 9 ->
  k = 0 \/ k = 1 \/ k = 2 \/ k = 3 \/ k = 4 \/ k = 5 \/ k = 6 \/ k = 7 \/ k = 8 \/ k = 9.
Proof. lia. Qed.

Lemma isDigit_digitChar (k : Z) :
  0 <= k <= 9 -> JSDate.isDigit (JSDate.digitChar k) = true.
Proof. intros H. by_digit_cases digit_cases H. Qed.

Lemma digitOf_digitChar (k : Z) :
  0 <= k <= 9 -> JSDate.digitOf (JSDate.digitChar k) = k.
Proof. intros H. by_digit_cases digit_cases H. Qed.

Lemma digitChar_not_T (k : Z) :
  0 <= k <= 9 -> Ascii.eqb (JSDate.digitChar k) "T" = false.
Proof. intros H. by_digit_cases digit_cases H. Qed.

(** Element 0 of [split] is the text before the first separator. *)
Lemma split_freeOf (sep : ascii) (a b : string) :
  JSDate.freeOf sep a = true ->
  (JSDate.split sep (a +:+ String sep b)).1 = a.
Proof.
  induction a as [| c a IH]; simpl; intros H.
  - destruct (JSDate.split sep b). rewrite Ascii.eqb_refl. reflexivity.
  - apply andb_true_iff in H as [Hc Ha]. apply negb_true_iff in Hc.
    specialize (IH Ha).
    destruct (JSDate.split sep (a +:+ String sep b)) as [x xs].
    rewrite Hc. simpl in *. congruence.
Qed.

(** The date part of the ISO format, digit by digit, for the years 0000
    to 9999. *)
Lemma isoDate_digits (tv : Z) :
  -62167219200000 <= tv <= 253402300799999 ->
  exists y m d,
    0 <= y <= 9999 /\ 1 <= m <= 12 /\ 1 <= d <= 31 /\
    JSDate.isoDate tv =
    String (JSDate.digitChar (y / 1000)) (String (JSDate.digitChar (y / 100 mod 10))
      (String (JSDate.digitChar (y / 10 mod 10)) (String (JSDate.digitChar (y mod 10))
        (String "-" (String (JSDate.digitChar (m / 10)) (String (JSDate.digitChar (m mod 10))
          (String "-" (String (JSDate.digitChar (d / 10))
            (String (JSDate.digitChar (d mod 10)) ""))))))))).
Proof.
  intros H. apply Day_range in H. apply civilFromDay_range in H.
  unfold JSDate.isoDate, JSDate.yearString, JSDate.YearFromTime,
    JSDate.MonthFromTime, JSDate.DateFromTime.
  destruct (JSDate.civilFromDay (JSDate.Day tv)) as [[y m] d].
  destruct H as (Hy & Hm & Hd). exists y, m, d. repeat split; try lia.
  simpl fst; simpl snd.
  replace (m - 1 + 1) with m by lia.
  destruct (Z.leb_spec 0 y); [| lia]. destruct (Z.leb_spec y 9999); [| lia].
  simpl andb. cbv iota.
  rewrite pad4_digits by lia. rewrite !pad2_digits by lia. reflexivity.
Qed.

Lemma isoDate_isCalendarDate (tv : Z) :
  -62167219200000 <= tv <= 253402300799999 ->
  JSDate.isCalendarDate (JSDate.isoDate tv) = true.
Proof.
  intros H. destruct (isoDate_digits tv H) as (y & m & d & Hy & Hm & Hd & ->).
  unfold JSDate.isCalendarDate.
  rewrite !isDigit_digitChar by div_lia.
  rewrite !digitOf_digitChar by div_lia.
  replace (10 * (m / 10) + m mod 10) with m by div_lia.
  replace (10 * (d / 10) + d mod 10) with d by div_lia.
  repeat (apply andb_true_intro; split); try reflexivity; apply Z.leb_le; lia.
Qed.

Lemma isoDate_freeOf_T (tv : Z) :
  -62167219200000 <= tv <= 253402300799999 ->
  JSDate.freeOf "T" (JSDate.isoDate tv) = true.
Proof.
  intros H. destruct (isoDate_digits tv H) as (y & m & d & Hy & Hm & Hd & ->).
  simpl. rewrite !digitChar_not_T by div_lia. reflexivity.
Qed.

(** [new Date().toISOString().split('T')[0]] is the date part. *)
Lemma split_toISOString (tv : Z) :
  -62167219200000 <= tv <= 253402300799999 ->
  (JSDate.split "T" (JSDate.toISOString tv)).1 = JSDate.isoDate tv.
Proof.
  intros H. unfold JSDate.toISOString. apply split_freeOf, isoDate_freeOf_T, H.
Qed.

(** ** Validation *)

Lemma parseString_INVALID (def : Zod.ZodString) (key : string)
    (v : option FormDataEntryValue) (issues : Zod.ZodError) :
  Zod.parseString def key v = Zod.INVALID issues ->
  exists c m, issues = [ {| Zod.code := c; Zod.path := [key]; Zod.message := m |} ].
Proof.
  unfold Zod.parseString. intros H.
  destruct v as [[s | f] |]; inversion H; eauto.
Qed.

Lemma parseNumber_INVALID (def : Zod.ZodNumber) (key : string)
    (v : option FormDataEntryValue) (issues : Zod.ZodError) :
  Zod.parseNumber def key v = Zod.INVALID issues ->
  exists c m, issues = [ {| Zod.code := c; Zod.path := [key]; Zod.message := m |} ].
Proof.
  unfold Zod.parseNumber. intros H.
  destruct (is_nan (Number v)); [inversion H; eauto |].
  destruct (Zod.gt def) as [[value msg] |]; [| discriminate].
  destruct (Number v <=? value)%float; inversion H; eauto.
Qed.

Lemma parseEnum_INVALID (def : Zod.ZodEnum) (key : string)
    (v : option FormDataEntryValue) (issues : Zod.ZodError) :
  Zod.parseEnum def key v = Zod.INVALID issues ->
  exists c m, issues = [ {| Zod.code := c; Zod.path := [key]; Zod.message := m |} ].
Proof.
  unfold Zod.parseEnum. intros H.
  destruct v as [[s | f] |]; [| inversion H; eauto ..].
  destruct (bool_decide (s ∈ Zod.values def)); inversion H; eauto.
Qed.

(** A failed [safeParse] carries one issue per rejected key, in the order
    of the shape; a successful one means that no key was rejected. *)
Lemma safeParse_issueKeys (schema : Zod.InvoiceShape) (input : Zod.RawInvoice) :
  match Zod.safeParse schema input with
  | Zod.SafeParseSuccess _ => Zod.invalidFields schema input = []
  | Zod.SafeParseError error =>
      Zod.issueKeys error = Zod.invalidFields schema input /\
      Zod.invalidFields schema input <> []
  end.
Proof.
  unfold Zod.safeParse, Zod.invalidFields.
  destruct (Zod.parseString _ _ _) as [cv | ci] eqn:Hc;
    destruct (Zod.parseNumber _ _ _) as [av | ai] eqn:Ha;
    destruct (Zod.parseEnum _ _ _) as [sv | si] eqn:Hs;
    try (apply parseString_INVALID in Hc as (? & ? & ->));
    try (apply parseNumber_INVALID in Ha as (? & ? & ->));
    try (apply parseEnum_INVALID in Hs as (? & ? & ->));
    simpl; try split; try reflexivity; discriminate.
Qed.

Lemma flatten_from_lookup (error : Zod.ZodError) (acc : gmap string (list string)) (k : string) :
  foldl (fun fieldErrors sub =>
           match Zod.path sub with
           | k' :: _ => <[k' := default [] (fieldErrors !! k') ++ [Zod.message sub]]> fieldErrors
           | [] => fieldErrors
           end) acc error !! k =
  match Zod.messagesAt k error with
  | [] => acc !! k
  | ms => Some (default [] (acc !! k) ++ ms)
  end.
Proof.
  revert acc. induction error as [| sub rest IH]; intros acc; simpl; [reflexivity |].
  rewrite IH. destruct (Zod.path sub) as [| k' p]; [reflexivity |].
  destruct (String.eqb_spec k' k) as [-> | Hne].
  - rewrite lookup_insert_eq. simpl.
    destruct (Zod.messagesAt k rest); [reflexivity |].
    rewrite <- app_assoc. reflexivity.
  - rewrite lookup_insert_ne by assumption. reflexivity.
Qed.

(** The entry of [fieldErrors] at a key: the messages of its issues. *)
Lemma flatten_lookup (error : Zod.ZodError) (k : string) :
  Zod.flatten error !! k =
  match Zod.messagesAt k error with
  | [] => None
  | ms => Some ms
  end.
Proof.
  unfold Zod.flatten. rewrite flatten_from_lookup, lookup_empty. reflexivity.
Qed.

Lemma messagesAt_issueKeys (error : Zod.ZodError) (k : string) :
  Zod.messagesAt k error <> [] <-> k ∈ Zod.issueKeys error.
Proof.
  unfold Zod.issueKeys.
  induction error as [| sub rest IH]; simpl.
  - split; [congruence | intros H; inversion H].
  - destruct (Zod.path sub) as [| k' p]; simpl; [exact IH |].
    destruct (String.eqb_spec k' k) as [-> | Hne].
    + rewrite elem_of_cons. split; [intros _; left; reflexivity | discriminate].
    + rewrite elem_of_cons. split; [tauto | intros [He | Hin]; [congruence | tauto]].
Qed.

(** [fieldErrors] has an entry exactly at the keys of the issues. *)
Lemma flatten_is_Some (error : Zod.ZodError) (k : string) :
  is_Some (Zod.flatten error !! k) <-> k ∈ Zod.issueKeys error.
Proof.
  rewrite <- messagesAt_issueKeys, flatten_lookup.
  destruct (Zod.messagesAt k error); split; intros H;
    try congruence; try (eexists; reflexivity).
  destruct H as [? H]. discriminate.
Qed.

(** ** The runs of the actions, case by case *)

Section Runs.
Context {Store : Type} `{!Database Store}.
Implicit Types (formData : FormData) (clk : Z) (st : Store) (id text : string).
Implicit Types (data : Zod.InvoiceData) (error : Zod.ZodError).

Lemma earlier_create_invalid formData clk st error :
  Zod.safeParse Earlier.CreateInvoice (rawInvoice formData) = Zod.SafeParseError error ->
  Earlier.createInvoice formData clk st =
  (inr databaseErrorCreate, st, [TryEnter; Catch; ConsoleError (ZodErr error)]).
Proof. intros H. run_action H. Qed.

Lemma earlier_create_write_fails formData clk st data text :
  Zod.safeParse Earlier.CreateInvoice (rawInvoice formData) = Zod.SafeParseSuccess data ->
  exec (insertStatement data clk) st = inl text ->
  Earlier.createInvoice formData clk st =
  (inr databaseErrorCreate, st,
   [TryEnter; ClockRead clk; WriteFailed (insertStatement data clk) text; Catch;
    ConsoleError (PostgresError text)]).
Proof. intros H Hx. run_action H. run_action Hx. Qed.

Lemma earlier_create_ok formData clk st st' data :
  Zod.safeParse Earlier.CreateInvoice (rawInvoice formData) = Zod.SafeParseSuccess data ->
  exec (insertStatement data clk) st = inr st' ->
  Earlier.createInvoice formData clk st =
  (inl (NEXT_REDIRECT "/dashboard/invoices"), st',
   [TryEnter; ClockRead clk; Wrote (insertStatement data clk); TryLeave;
    RevalidatePath "/dashboard/invoices"; Redirect "/dashboard/invoices"]).
Proof. intros H Hx. run_action H. run_action Hx. Qed.

Lemma earlier_update_invalid id formData clk st error :
  Zod.safeParse Earlier.UpdateInvoice (rawInvoice formData) = Zod.SafeParseError error ->
  Earlier.updateInvoice id formData clk st =
  (inr databaseErrorUpdate, st, [TryEnter; Catch; ConsoleError (ZodErr error)]).
Proof. intros H. run_action H. Qed.

Lemma earlier_update_write_fails id formData clk st data text :
  Zod.safeParse Earlier.UpdateInvoice (rawInvoice formData) = Zod.SafeParseSuccess data ->
  exec (updateStatement data id) st = inl text ->
  Earlier.updateInvoice id formData clk st =
  (inr databaseErrorUpdate, st,
   [TryEnter; WriteFailed (updateStatement data id) text; Catch;
    ConsoleError (PostgresError text)]).
Proof. intros H Hx. run_action H. run_action Hx. Qed.

Lemma earlier_update_ok id formData clk st st' data :
  Zod.safeParse Earlier.UpdateInvoice (rawInvoice formData) = Zod.SafeParseSuccess data ->
  exec (updateStatement data id) st = inr st' ->
  Earlier.updateInvoice id formData clk st =
  (inl (NEXT_REDIRECT "/dashboard/invoices"), st',
   [TryEnter; Wrote (updateStatement data id); TryLeave;
    RevalidatePath "/dashboard/invoices"; Redirect "/dashboard/invoices"]).
Proof. intros H Hx. run_action H. run_action Hx. Qed.

Lemma earlier_delete_fails id clk st text :
  exec (DELETE_FROM_invoices id) st = inl text ->
  Earlier.deleteInvoice id clk st =
  (inr databaseErrorDelete, st,
   [TryEnter; WriteFailed (DELETE_FROM_invoices id) text; Catch;
    ConsoleError (PostgresError text)]).
Proof. intros Hx. run_action Hx. Qed.

Lemma earlier_delete_ok id clk st st' :
  exec (DELETE_FROM_invoices id) st = inr st' ->
  Earlier.deleteInvoice id clk st =
  (inr deletedSuccessfully, st',
   [TryEnter; Wrote (DELETE_FROM_invoices id); RevalidatePath "/dashboard/invoices";
    TryLeave]).
Proof. intros Hx. run_action Hx. Qed.

Lemma later_create_invalid (prevState : State) formData clk st error :
  Zod.safeParse Later.CreateInvoice (rawInvoice formData) = Zod.SafeParseError error ->
  Later.createInvoice prevState formData clk st =
  (inr (missingFieldsCreate (Zod.flatten error)), st, []).
Proof. intros H. run_action H. Qed.

Lemma later_create_write_fails (prevState : State) formData clk st data text :
  Zod.safeParse Later.CreateInvoice (rawInvoice formData) = Zod.SafeParseSuccess data ->
  exec (insertStatement data clk) st = inl text ->
  Later.createInvoice prevState formData clk st =
  (inl (PostgresError text), st,
   [ClockRead clk; TryEnter; WriteFailed (insertStatement data clk) text; Catch;
    ConsoleError (PostgresError text)]).
Proof. intros H Hx. run_action H. run_action Hx. Qed.

Lemma later_create_ok (prevState : State) formData clk st st' data :
  Zod.safeParse Later.CreateInvoice (rawInvoice formData) = Zod.SafeParseSuccess data ->
  exec (insertStatement data clk) st = inr st' ->
  Later.createInvoice prevState formData clk st =
  (inl (NEXT_REDIRECT "/dashboard/invoices"), st',
   [ClockRead clk; TryEnter; Wrote (insertStatement data clk); TryLeave;
    RevalidatePath "/dashboard/invoices"; Redirect "/dashboard/invoices"]).
Proof. intros H Hx. run_action H. run_action Hx. Qed.

Lemma later_update_invalid id formData clk st error :
  Zod.safeParse Later.UpdateInvoice (rawInvoice formData) = Zod.SafeParseError error ->
  Later.updateInvoice id formData clk st =
  (inl (ZodErr error), st, [TryEnter; Catch; ConsoleError (ZodErr error)]).
Proof. intros H. run_action H. Qed.

Lemma later_update_write_fails id formData clk st data text :
  Zod.safeParse Later.UpdateInvoice (rawInvoice formData) = Zod.SafeParseSuccess data ->
  exec (updateStatement data id) st = inl text ->
  Later.updateInvoice id formData clk st =
  (inl (PostgresError text), st,
   [TryEnter; WriteFailed (updateStatement data id) text; Catch;
    ConsoleError (PostgresError text)]).
Proof. intros H Hx. run_action H. run_action Hx. Qed.

Lemma later_update_ok id formData clk st st' data :
  Zod.safeParse Later.UpdateInvoice (rawInvoice formData) = Zod.SafeParseSuccess data ->
  exec (updateStatement data id) st = inr st' ->
  Later.updateInvoice id formData clk st =
  (inl (NEXT_REDIRECT "/dashboard/invoices"), st',
   [TryEnter; Wrote (updateStatement data id); TryLeave;
    RevalidatePath "/dashboard/invoices"; Redirect "/dashboard/invoices"]).
Proof. intros H Hx. run_action H. run_action Hx. Qed.

Lemma later_delete_fails id clk st text :
  exec (DELETE_FROM_invoices id) st = inl text ->
  Later.deleteInvoice id clk st =
  (inl (PostgresError text), st,
   [TryEnter; WriteFailed (DELETE_FROM_invoices id) text; Catch;
    ConsoleError (PostgresError text)]).
Proof. intros Hx. run_action Hx. Qed.

Lemma later_delete_ok id clk st st' :
  exec (DELETE_FROM_invoices id) st = inr st' ->
  Later.deleteInvoice id clk st =
  (inr tt, st',
   [TryEnter; Wrote (DELETE_FROM_invoices id); RevalidatePath "/dashboard/invoices";
    TryLeave]).
Proof. intros Hx. run_action Hx. Qed.

End Runs.

(** ** Validation and the two schemas *)

Lemma invalid_safeParse_error (schema : Zod.InvoiceShape) (input : Zod.RawInvoice) :
  Zod.invalidFields schema input <> [] ->
  exists error,
    Zod.safeParse schema input = Zod.SafeParseError error /\
    Zod.issueKeys error = Zod.invalidFields schema input.
Proof.
  intros Hne. pose proof (safeParse_issueKeys schema input) as H.
  destruct (Zod.safeParse schema input) as [data | error].
  - contradiction.
  - exists error. split; [reflexivity | apply H].
Qed.


(** C1 (as amended): when two or more fields of a submission are invalid,
    the later [createInvoice] returns a Field Error Map that has an entry
    exactly at every invalid field, and touches neither the store nor any
    signal; the later [updateInvoice] returns no map: it logs the
    validation error, which lists one issue per invalid field, and throws
    it again. *)
Theorem field_errors_aggregate {Store : Type} `{!Database Store}
    (prevState : State) (id : string) (formData : FormData) (clk : Z) (st : Store) :
  (2 <= length (Zod.invalidFields Later.CreateInvoice (rawInvoice formData)))%nat ->
  (exists fieldErrors,
     Later.createInvoice prevState formData clk st =
       (inr (missingFieldsCreate fieldErrors), st, []) /\
     forall k, k ∈ Zod.invalidFields Later.CreateInvoice (rawInvoice formData) <->
               is_Some (fieldErrors !! k)) /\
  (exists error,
     Later.updateInvoice id formData clk st =
       (inl (ZodErr error), st, [TryEnter; Catch; ConsoleError (ZodErr error)]) /\
     Zod.issueKeys error = Zod.invalidFields Later.UpdateInvoice (rawInvoice formData)).
Proof.
  intros Hlen.
  destruct (invalid_safeParse_error Later.CreateInvoice (rawInvoice formData))
    as (error & Hp & Hk).
  { intros E. rewrite E in Hlen. simpl in Hlen. lia. }
  split.
  - exists (Zod.flatten error). split.
    + apply later_create_invalid, Hp.
    + intros k. rewrite flatten_is_Some, Hk. reflexivity.
  - exists error. split; [apply later_update_invalid, Hp | exact Hk].
Qed.

Lemma field_errors_aggregate_witness :
  (2 <= length (Zod.invalidFields Later.CreateInvoice (rawInvoice Sample.twoInvalid)))%nat /\
  ((exists fieldErrors,
      Later.createInvoice Sample.prevState Sample.twoInvalid Sample.clock Sample.healthy =
        (inr (missingFieldsCreate fieldErrors), Sample.healthy, []) /\
      forall k, k ∈ Zod.invalidFields Later.CreateInvoice (rawInvoice Sample.twoInvalid) <->
                is_Some (fieldErrors !! k)) /\
   (exists error,
      Later.updateInvoice "inv-1" Sample.twoInvalid Sample.clock Sample.healthy =
        (inl (ZodErr error), Sample.healthy, [TryEnter; Catch; ConsoleError (ZodErr error)]) /\
      Zod.issueKeys error = Zod.invalidFields Later.UpdateInvoice (rawInvoice Sample.twoInvalid))).
Proof.
  assert (H : (2 <= length (Zod.invalidFields Later.CreateInvoice
                              (rawInvoice Sample.twoInvalid)))%nat)
    by (vm_compute; lia).
  split; [exact H |].
  exact (field_errors_aggregate Sample.prevState "inv-1" Sample.twoInvalid
           Sample.clock Sample.healthy H).
Defined.

(** C1, as stated, fails for [updateInvoice]: on a submission with two
    invalid fields it returns nothing; it ends by throwing the validation
    error. *)
Lemma updateInvoice_returns_no_field_errors :
  Zod.invalidFields Later.UpdateInvoice (rawInvoice Sample.twoInvalid) = ["amount"; "status"] /\
  Later.updateInvoice "inv-1" Sample.twoInvalid Sample.clock Sample.healthy =
    (inl (ZodErr Sample.twoIssues), Sample.healthy,
     [TryEnter; Catch; ConsoleError (ZodErr Sample.twoIssues)]).
Proof. split; vm_compute; reflexivity. Qed.

(** ** The amount in cents *)

(** C2, evaluated on the code: the statement written carries the binary64
    product of the parsed amount and 100, with no truncation or rounding
    step. For the amount 49.99 that product is 4999; for the amount
    1.15 it is 114.99999999999999 (the binary64 value
    [0x1.cbfffffffffffp+6], just below 115), which is not an integer, in
    [createInvoice] and [updateInvoice] and in both variants alike. *)
Theorem amountInCents_is_float_product :
  (Later.createInvoice Sample.prevState (Sample.form "49.99") Sample.clock Sample.healthy).2 =
    [ClockRead Sample.clock; TryEnter;
     Wrote (INSERT_INTO_invoices "c1" 4999%float "paid" "2025-12-05"); TryLeave;
     RevalidatePath "/dashboard/invoices"; Redirect "/dashboard/invoices"] /\
  (Later.createInvoice Sample.prevState (Sample.form "1.15") Sample.clock Sample.healthy).2 =
    [ClockRead Sample.clock; TryEnter;
     Wrote (INSERT_INTO_invoices "c1" 0x1.cbfffffffffffp+6%float "paid" "2025-12-05");
     TryLeave; RevalidatePath "/dashboard/invoices"; Redirect "/dashboard/invoices"] /\
  (Later.updateInvoice "inv-1" (Sample.form "1.15") Sample.clock Sample.healthy).2 =
    [TryEnter; Wrote (UPDATE_invoices "c1" 0x1.cbfffffffffffp+6%float "paid" "inv-1");
     TryLeave; RevalidatePath "/dashboard/invoices"; Redirect "/dashboard/invoices"] /\
  (Earlier.createInvoice (Sample.form "1.15") Sample.clock Sample.healthy).2 =
    [TryEnter; ClockRead Sample.clock;
     Wrote (INSERT_INTO_invoices "c1" 0x1.cbfffffffffffp+6%float "paid" "2025-12-05");
     TryLeave; RevalidatePath "/dashboard/invoices"; Redirect "/dashboard/invoices"] /\
  JS.isInteger 4999%float = true /\
  JS.isInteger 0x1.cbfffffffffffp+6%float = false /\
  (0x1.cbfffffffffffp+6 <? 115)%float = true.
Proof. repeat split; vm_compute; reflexivity. Qed.

(** The amount 1.15 is not alone: of the amounts 0.01 to 9.99, 135 have a
    product that is not an integer, 0.07, 0.14, 0.28 and 0.29 the first. *)
Example amounts_with_fractional_cents :
  JS.StringToNumber "1.15" = JS.roundMV false 115 (-2) /\
  length (filter (fun n => JS.isInteger (centsOfHundredths n) = false) (seqZ 1 999)) = 135%nat /\
  filter (fun n => JS.isInteger (centsOfHundredths n) = false) (seqZ 1 30) = [7; 14; 28; 29].
Proof. repeat split; vm_compute; reflexivity. Qed.

(** ** Failures of the store *)

(** C3 (as amended): when the store fails the statement an operation
    sends, with some error text, the earlier variant logs the raw error
    and returns a result that holds only a fixed message naming the
    operation, the same whatever the text; the later variant logs the
    raw error and throws it again, unchanged, to its caller. Each
    operation is taken with the failure of its own statement alone and
    with a form its own schema accepts. *)
Theorem store_failure_outcomes {Store : Type} `{!Database Store}
    (prevState : State) (id : string) (formData : FormData) (clk : Z) (st : Store)
    (text : string) :
  (forall data,
     Zod.safeParse Earlier.CreateInvoice (rawInvoice formData) = Zod.SafeParseSuccess data ->
     exec (insertStatement data clk) st = inl text ->
     Earlier.createInvoice formData clk st =
       (inr {| errors := None; message := Some "Database Error: Failed to Create Invoice." |},
        st,
        [TryEnter; ClockRead clk; WriteFailed (insertStatement data clk) text; Catch;
         ConsoleError (PostgresError text)])) /\
  (forall data,
     Zod.safeParse Earlier.UpdateInvoice (rawInvoice formData) = Zod.SafeParseSuccess data ->
     exec (updateStatement data id) st = inl text ->
     Earlier.updateInvoice id formData clk st =
       (inr {| errors := None; message := Some "Database Error: Failed to Update Invoice." |},
        st,
        [TryEnter; WriteFailed (updateStatement data id) text; Catch;
         ConsoleError (PostgresError text)])) /\
  (exec (DELETE_FROM_invoices id) st = inl text ->
   Earlier.deleteInvoice id clk st =
     (inr {| errors := None; message := Some "Database Error: Failed to Delete Invoice." |},
      st,
      [TryEnter; WriteFailed (DELETE_FROM_invoices id) text; Catch;
       ConsoleError (PostgresError text)])) /\
  (forall data,
     Zod.safeParse Later.CreateInvoice (rawInvoice formData) = Zod.SafeParseSuccess data ->
     exec (insertStatement data clk) st = inl text ->
     Later.createInvoice prevState formData clk st =
       (inl (PostgresError text), st,
        [ClockRead clk; TryEnter; WriteFailed (insertStatement data clk) text; Catch;
         ConsoleError (PostgresError text)])) /\
  (forall data,
     Zod.safeParse Later.UpdateInvoice (rawInvoice formData) = Zod.SafeParseSuccess data ->
     exec (updateStatement data id) st = inl text ->
     Later.updateInvoice id formData clk st =
       (inl (PostgresError text), st,
        [TryEnter; WriteFailed (updateStatement data id) text; Catch;
         ConsoleError (PostgresError text)])) /\
  (exec (DELETE_FROM_invoices id) st = inl text ->
   Later.deleteInvoice id clk st =
     (inl (PostgresError text), st,
      [TryEnter; WriteFailed (DELETE_FROM_invoices id) text; Catch;
       ConsoleError (PostgresError text)])).
Proof.
  split; [| split; [| split; [| split; [| split]]]].
  - intros data Hp Hx. apply (earlier_create_write_fails _ _ _ _ _ Hp Hx).
  - intros data Hp Hx. apply (earlier_update_write_fails _ _ _ _ _ _ Hp Hx).
  - intros Hx. apply (earlier_delete_fails _ _ _ _ Hx).
  - intros data Hp Hx. apply (later_create_write_fails _ _ _ _ _ _ Hp Hx).
  - intros data Hp Hx. apply (later_update_write_fails _ _ _ _ _ _ Hp Hx).
  - intros Hx. apply (later_delete_fails _ _ _ _ Hx).
Qed.

(** On a store that refuses the INSERT alone, on a form only the earlier
    schema accepts (amount 0), and on a store that is down. *)
Lemma store_failure_outcomes_witness :
  Earlier.createInvoice (Sample.form "0") Sample.clock Fk.empty =
    (inr {| errors := None; message := Some "Database Error: Failed to Create Invoice." |},
     Fk.empty,
     [TryEnter; ClockRead Sample.clock;
      WriteFailed (INSERT_INTO_invoices "c1" 0%float "paid" "2025-12-05")
        "insert or update on table invoices violates foreign key constraint";
      Catch;
      ConsoleError
        (PostgresError "insert or update on table invoices violates foreign key constraint")]) /\
  Later.createInvoice Sample.prevState (Sample.form "49.99") Sample.clock Fk.empty =
    (inl (PostgresError "insert or update on table invoices violates foreign key constraint"),
     Fk.empty,
     [ClockRead Sample.clock; TryEnter;
      WriteFailed (INSERT_INTO_invoices "c1" 4999%float "paid" "2025-12-05")
        "insert or update on table invoices violates foreign key constraint";
      Catch;
      ConsoleError
        (PostgresError "insert or update on table invoices violates foreign key constraint")]) /\
  Earlier.updateInvoice "inv-1" (Sample.form "49.99") Sample.clock Sample.down =
    (inr {| errors := None; message := Some "Database Error: Failed to Update Invoice." |},
     Sample.down,
     [TryEnter;
      WriteFailed (UPDATE_invoices "c1" 4999%float "paid" "inv-1")
        "connect ECONNREFUSED 10.0.0.5:5432";
      Catch; ConsoleError (PostgresError "connect ECONNREFUSED 10.0.0.5:5432")]) /\
  Earlier.deleteInvoice "inv-1" Sample.clock Sample.down =
    (inr {| errors := None; message := Some "Database Error: Failed to Delete Invoice." |},
     Sample.down,
     [TryEnter;
      WriteFailed (DELETE_FROM_invoices "inv-1") "connect ECONNREFUSED 10.0.0.5:5432";
      Catch; ConsoleError (PostgresError "connect ECONNREFUSED 10.0.0.5:5432")]) /\
  Later.updateInvoice "inv-1" (Sample.form "49.99") Sample.clock Sample.down =
    (inl (PostgresError "connect ECONNREFUSED 10.0.0.5:5432"), Sample.down,
     [TryEnter;
      WriteFailed (UPDATE_invoices "c1" 4999%float "paid" "inv-1")
        "connect ECONNREFUSED 10.0.0.5:5432";
      Catch; ConsoleError (PostgresError "connect ECONNREFUSED 10.0.0.5:5432")]) /\
  Later.deleteInvoice "inv-1" Sample.clock Sample.down =
    (inl (PostgresError "connect ECONNREFUSED 10.0.0.5:5432"), Sample.down,
     [TryEnter;
      WriteFailed (DELETE_FROM_invoices "inv-1") "connect ECONNREFUSED 10.0.0.5:5432";
      Catch; ConsoleError (PostgresError "connect ECONNREFUSED 10.0.0.5:5432")]).
Proof.
  pose proof (store_failure_outcomes Sample.prevState "inv-1" (Sample.form "0")
                Sample.clock Fk.empty
                "insert or update on table invoices violates foreign key constraint")
    as (Hec & _).
  pose proof (store_failure_outcomes Sample.prevState "inv-1" (Sample.form "49.99")
                Sample.clock Fk.empty
                "insert or update on table invoices violates foreign key constraint")
    as (_ & _ & _ & Hlc & _).
  pose proof (store_failure_outcomes Sample.prevState "inv-1" (Sample.form "49.99")
                Sample.clock Sample.down "connect ECONNREFUSED 10.0.0.5:5432")
    as (_ & Heu & Hed & _ & Hlu & Hld).
  split; [| split; [| split; [| split; [| split]]]].
  - apply (Hec {| Zod.customerId := "c1"; Zod.amount := 0%float; Zod.status := "paid" |});
      vm_compute; reflexivity.
  - apply (Hlc {| Zod.customerId := "c1"; Zod.amount := 0x1.8feb851eb851fp+5%float;
                  Zod.status := "paid" |}); vm_compute; reflexivity.
  - apply (Heu {| Zod.customerId := "c1"; Zod.amount := 0x1.8feb851eb851fp+5%float;
                  Zod.status := "paid" |}); vm_compute; reflexivity.
  - apply Hed. reflexivity.
  - apply (Hlu {| Zod.customerId := "c1"; Zod.amount := 0x1.8feb851eb851fp+5%float;
                  Zod.status := "paid" |}); vm_compute; reflexivity.
  - apply Hld. reflexivity.
Defined.

(** C3, as stated, fails in the later variant: the caller of
    [createInvoice] receives the store's own error, text included, as an
    exception, and no result object. *)
Lemma later_createInvoice_rethrows_store_error :
  Later.createInvoice Sample.prevState (Sample.form "49.99") Sample.clock Sample.down =
    (inl (PostgresError "connect ECONNREFUSED 10.0.0.5:5432"), Sample.down,
     [ClockRead Sample.clock; TryEnter;
      WriteFailed (INSERT_INTO_invoices "c1" 4999%float "paid" "2025-12-05")
        "connect ECONNREFUSED 10.0.0.5:5432";
      Catch; ConsoleError (PostgresError "connect ECONNREFUSED 10.0.0.5:5432")]).
Proof. vm_compute. reflexivity. Qed.

(** ** The order of the write and the signals *)

(** C4: in every run of [createInvoice] and of [updateInvoice], in both
    variants, each cache-invalidation or navigation signal is issued
    outside every [try] block, after a write that succeeded and with no
    failed write and no handler before it; and a run whose write fails
    issues no such signal at all. *)
Theorem signals_follow_write_scope {Store : Type} `{!Database Store}
    (prevState : State) (id : string) (formData : FormData) (clk : Z) (st : Store) :
  (signalsFollowWrite 0 false false (Earlier.createInvoice formData clk st).2 = true /\
   failedWriteSilences (Earlier.createInvoice formData clk st).2 = true) /\
  (signalsFollowWrite 0 false false (Earlier.updateInvoice id formData clk st).2 = true /\
   failedWriteSilences (Earlier.updateInvoice id formData clk st).2 = true) /\
  (signalsFollowWrite 0 false false (Later.createInvoice prevState formData clk st).2 = true /\
   failedWriteSilences (Later.createInvoice prevState formData clk st).2 = true) /\
  (signalsFollowWrite 0 false false (Later.updateInvoice id formData clk st).2 = true /\
   failedWriteSilences (Later.updateInvoice id formData clk st).2 = true).
Proof.
  split; [| split; [| split]].
  - destruct (Zod.safeParse Earlier.CreateInvoice (rawInvoice formData)) as [d | e] eqn:Hp.
    + destruct (exec (insertStatement d clk) st) as [t | st'] eqn:Hx.
      * rewrite (earlier_create_write_fails _ _ _ _ _ Hp Hx). split; reflexivity.
      * rewrite (earlier_create_ok _ _ _ _ _ Hp Hx). split; reflexivity.
    + rewrite (earlier_create_invalid _ _ _ _ Hp). split; reflexivity.
  - destruct (Zod.safeParse Earlier.UpdateInvoice (rawInvoice formData)) as [d | e] eqn:Hp.
    + destruct (exec (updateStatement d id) st) as [t | st'] eqn:Hx.
      * rewrite (earlier_update_write_fails _ _ _ _ _ _ Hp Hx). split; reflexivity.
      * rewrite (earlier_update_ok _ _ _ _ _ _ Hp Hx). split; reflexivity.
    + rewrite (earlier_update_invalid _ _ _ _ _ Hp). split; reflexivity.
  - destruct (Zod.safeParse Later.CreateInvoice (rawInvoice formData)) as [d | e] eqn:Hp.
    + destruct (exec (insertStatement d clk) st) as [t | st'] eqn:Hx.
      * rewrite (later_create_write_fails _ _ _ _ _ _ Hp Hx). split; reflexivity.
      * rewrite (later_create_ok _ _ _ _ _ _ Hp Hx). split; reflexivity.
    + rewrite (later_create_invalid _ _ _ _ _ Hp). split; reflexivity.
  - destruct (Zod.safeParse Later.UpdateInvoice (rawInvoice formData)) as [d | e] eqn:Hp.
    + destruct (exec (updateStatement d id) st) as [t | st'] eqn:Hx.
      * rewrite (later_update_write_fails _ _ _ _ _ _ Hp Hx). split; reflexivity.
      * rewrite (later_update_ok _ _ _ _ _ _ Hp Hx). split; reflexivity.
    + rewrite (later_update_invalid _ _ _ _ _ Hp). split; reflexivity.
Qed.

(** Why the placement matters: a [redirect] inside the [try] block of a
    handler that logs and returns is absorbed by that handler, and the
    action returns instead of navigating. *)
Example redirect_inside_try_is_absorbed :
  try_catch (bind (sql (DELETE_FROM_invoices "inv-1"))
               (fun _ => redirect "/dashboard/invoices"))
            (fun e => bind (console_error e) (fun _ => ret tt))
            Sample.clock Sample.healthy =
  (inr tt, Pg.run (DELETE_FROM_invoices "inv-1") Sample.healthy,
   [TryEnter; Wrote (DELETE_FROM_invoices "inv-1"); Redirect "/dashboard/invoices";
    Catch; ConsoleError (NEXT_REDIRECT "/dashboard/invoices")]).
Proof. vm_compute. reflexivity. Qed.

(** The scan rejects that trace, and a signal after a failed write. *)
Example scan_rejects_misplaced_signals :
  signalsFollowWrite 0 false false
    [TryEnter; Wrote (DELETE_FROM_invoices "inv-1"); Redirect "/dashboard/invoices";
     Catch; ConsoleError (NEXT_REDIRECT "/dashboard/invoices")] = false /\
  signalsFollowWrite 0 false false
    [TryEnter; WriteFailed (DELETE_FROM_invoices "inv-1") "timeout"; Catch;
     ConsoleError (PostgresError "timeout"); RevalidatePath "/dashboard/invoices"] = false /\
  signalsFollowWrite 0 false false [RevalidatePath "/dashboard/invoices"] = false.
Proof. repeat split; reflexivity. Qed.

(** The scan tells the placements apart: [deleteInvoice] issues its
    cache signal inside the [try] block, and the scan rejects its trace. *)
Example deleteInvoice_signal_inside_scope :
  signalsFollowWrite 0 false false
    (Later.deleteInvoice "inv-1" Sample.clock Sample.healthy).2 = false.
Proof. vm_compute. reflexivity. Qed.

(** ** Rejected submissions *)

(** C5: when the submission fails validation, [createInvoice] returns the
    Field Error Map at once: the store is the one it was given and the
    trace is empty, so the clock was not read, no statement was sent, no
    [try] block was entered and no signal was issued. *)
Theorem invalid_submission_halts {Store : Type} `{!Database Store}
    (prevState : State) (formData : FormData) (clk : Z) (st : Store) :
  Zod.invalidFields Later.CreateInvoice (rawInvoice formData) <> [] ->
  exists error,
    Zod.safeParse Later.CreateInvoice (rawInvoice formData) = Zod.SafeParseError error /\
    Later.createInvoice prevState formData clk st =
      (inr (missingFieldsCreate (Zod.flatten error)), st, []).
Proof.
  intros Hne.
  destruct (invalid_safeParse_error _ _ Hne) as (error & Hp & _).
  exists error. split; [exact Hp | apply later_create_invalid, Hp].
Qed.

Lemma invalid_submission_halts_witness :
  exists error,
    Zod.safeParse Later.CreateInvoice (rawInvoice Sample.twoInvalid) =
      Zod.SafeParseError error /\
    Later.createInvoice Sample.prevState Sample.twoInvalid Sample.clock Sample.healthy =
      (inr (missingFieldsCreate (Zod.flatten error)), Sample.healthy, []).
Proof.
  apply (invalid_submission_halts Sample.prevState Sample.twoInvalid Sample.clock
           Sample.healthy).
  vm_compute. discriminate.
Defined.

(** ** The table behind the statements *)

Lemma update_rows (c : string) (a : float) (s i : string) (rows : list Pg.InvoiceRow) :
  let rows' := map (fun r => if String.eqb (Pg.id r) i
                             then {| Pg.id := Pg.id r; Pg.customer_id := c; Pg.amount := a;
                                     Pg.status := s; Pg.date := Pg.date r |}
                             else r) rows in
  map Pg.id rows' = map Pg.id rows /\
  map Pg.date rows' = map Pg.date rows /\
  (forall r, r ∈ rows -> Pg.id r <> i -> r ∈ rows') /\
  (forall r', r' ∈ rows' -> Pg.id r' = i ->
     Pg.customer_id r' = c /\ Pg.amount r' = a /\ Pg.status r' = s).
Proof.
  induction rows as [| r0 rows IH]; simpl.
  - split; [reflexivity | split; [reflexivity | split; intros r Hr; inversion Hr]].
  - destruct IH as (Hid & Hdate & Hother & Hthis).
    split; [| split; [| split]].
    + f_equal; [| exact Hid]. destruct (String.eqb (Pg.id r0) i); reflexivity.
    + f_equal; [| exact Hdate]. destruct (String.eqb (Pg.id r0) i); reflexivity.
    + intros r Hr Hne. apply elem_of_cons in Hr as [-> | Hr].
      * destruct (String.eqb_spec (Pg.id r0) i); [contradiction | apply elem_of_cons; auto].
      * apply elem_of_cons. right. apply Hother; assumption.
    + intros r' Hr Hi. apply elem_of_cons in Hr as [-> | Hr].
      * destruct (String.eqb_spec (Pg.id r0) i); [simpl; auto | contradiction].
      * apply (Hthis _ Hr Hi).
Qed.



(** ** Dates and updates *)

Lemma InLeapYear_cases (y : Z) :
  (Gregorian.InLeapYear y = true /\ (y mod 4 = 0 /\ y mod 100 <> 0 \/ y mod 400 = 0)) \/
  (Gregorian.InLeapYear y = false /\ (y mod 4 <> 0 \/ y mod 100 = 0) /\ y mod 400 <> 0).
Proof.
  unfold Gregorian.InLeapYear.
  destruct (Z.eqb_spec (y mod 4) 0), (Z.eqb_spec (y mod 100) 0),
    (Z.eqb_spec (y mod 400) 0); simpl; intuition lia.
Qed.

(** The day number of 1 March of the year [yoe] of era [era]. *)
Lemma march_first (era yoe : Z) :
  0 <= yoe <= 399 ->
  let y := yoe + 400 * era in
  146097 * era + 365 * yoe + yoe / 4 - yoe / 100 - 719468 =
  Gregorian.DayFromYear y + 59 + Gregorian.leapDay y.
Proof.
  intros H y. unfold Gregorian.leapDay, Gregorian.DayFromYear.
  destruct (InLeapYear_cases y) as [[-> Hc] | [-> Hc]]; subst y; div_lia.
Qed.

Lemma january_first_next (era yoe : Z) :
  0 <= yoe <= 399 ->
  let y := yoe + 400 * era in
  Gregorian.DayFromYear (y + 1) = Gregorian.DayFromYear y + 365 + Gregorian.leapDay y.
Proof.
  intros H y. unfold Gregorian.leapDay, Gregorian.DayFromYear.
  destruct (InLeapYear_cases y) as [[-> Hc] | [-> Hc]]; subst y; div_lia.
Qed.

(** The last day of a year counted from 1 March is day 365 only before a
    leap February. *)
Lemma yoe_last_day (doe : Z) :
  0 <= doe <= 146096 ->
  let yoe := (doe - doe / 1460 + doe / 36524 - doe / 146096) / 365 in
  let doy := doe - (365 * yoe + yoe / 4 - yoe / 100) in
  doy = 365 -> (yoe + 1) mod 4 = 0 /\ ((yoe + 1) mod 100 <> 0 \/ yoe = 399).
Proof.
  intros H yoe doy. subst doy yoe.
  assert (H3 : doe / 146096 = 0 \/ doe = 146096) by div_lia.
  destruct H3 as [H3 | ->]; [| vm_compute; intuition congruence].
  rewrite H3.
  assert (Hc : doe / 36524 = 0 \/ doe / 36524 = 1 \/
               doe / 36524 = 2 \/ doe / 36524 = 3) by div_lia.
  destruct Hc as [Hc | [Hc | [Hc | Hc]]]; rewrite Hc; div_lia.
Qed.

Lemma month_cases (doy : Z) :
  0 <= doy <= 365 ->
  let mp := (5 * doy + 2) / 153 in
  (mp = 0 \/ mp = 1 \/ mp = 2 \/ mp = 3 \/ mp = 4 \/ mp = 5 \/ mp = 6 \/
   mp = 7 \/ mp = 8 \/ mp = 9 \/ mp = 10 \/ mp = 11) /\
  (153 * mp + 2) / 5 <= doy < (153 * (mp + 1) + 2) / 5.
Proof. intros H mp. subst mp. split; div_lia. Qed.

(** Month and day of the day [doy] of a year counted from 1 March; [D0]
    and [l0] are 1 January and the leap flag of the year of that March,
    [D1] and [l1] those of the next year. *)
Lemma month_day (doy D0 D1 day : Z) (l0 l1 : bool) :
  0 <= doy <= 365 ->
  (doy = 365 -> l1 = true) ->
  day = D0 + 59 + (if l0 then 1 else 0) + doy ->
  D1 = D0 + 365 + (if l0 then 1 else 0) ->
  let mp := (5 * doy + 2) / 153 in
  let d := doy - (153 * mp + 2) / 5 + 1 in
  let m := if mp <? 10 then mp + 3 else mp - 9 in
  let l := if m <=? 2 then l1 else l0 in
  let D := if m <=? 2 then D1 else D0 in
  1 <= m <= 12 /\ 1 <= d <= Gregorian.DaysInMonth l m /\
  D + Gregorian.daysBefore l (Z.to_nat (m - 1)) + (d - 1) = day.
Proof.
  intros Hdoy Hlast Hday HD1.
  destruct (month_cases doy Hdoy) as [Hmp Hmpd]. cbv zeta in *.
  set (mp := (5 * doy + 2) / 153) in *. clearbody mp.
  assert (Hl1 : l1 = true \/ doy <= 364).
  { destruct l1; [auto | right].
    destruct (Z.eq_dec doy 365) as [e | ne]; [specialize (Hlast e); discriminate | lia]. }
  clear Hlast.
  repeat (destruct Hmp as [Hmp | Hmp]; [subst mp |]); try subst mp;
    destruct l0, l1; destruct Hl1 as [Hl1 | Hl1]; try discriminate Hl1;
    eval_month; repeat split; div_lia.
Qed.

(** The date the runtime computes for a day number is the date of the
    Gregorian calendar with that day number. *)
Lemma civilFromDay_correct (day : Z) :
  let '(y, m, d) := JSDate.civilFromDay day in
  1 <= m <= 12 /\ 1 <= d <= Gregorian.DaysInMonth (Gregorian.InLeapYear y) m /\
  Gregorian.dayOfDate y m d = day.
Proof.
  unfold JSDate.civilFromDay, JSDate.dateOfEra.
  set (z := day + 719468).
  assert (Hdoe : 0 <= z mod 146097 <= 146096) by div_lia.
  assert (Hz : z = 146097 * (z / 146097) + z mod 146097) by div_lia.
  set (era := z / 146097) in *. set (doe := z mod 146097) in *.
  pose proof (yoe_bounds doe Hdoe) as Hy. cbv zeta in Hy.
  pose proof (yoe_last_day doe Hdoe) as Hlast. cbv zeta in Hlast.
  set (yoe := (doe - doe / 1460 + doe / 36524 - doe / 146096) / 365) in *.
  set (doy := doe - (365 * yoe + yoe / 4 - yoe / 100)) in *.
  destruct Hy as (Hyoe & Hdoy & _).
  pose proof (march_first era yoe Hyoe) as Hm1. cbv zeta in Hm1.
  pose proof (january_first_next era yoe Hyoe) as Hj1. cbv zeta in Hj1.
  set (y' := yoe + 400 * era) in *.
  unfold Gregorian.leapDay in Hm1, Hj1.
  assert (Hday : day = Gregorian.DayFromYear y' + 59 +
                       (if Gregorian.InLeapYear y' then 1 else 0) + doy)
    by (unfold doy, z in *; lia).
  assert (Hleap' : doy = 365 -> Gregorian.InLeapYear (y' + 1) = true).
  { intros E. destruct (Hlast E) as [H4 H100].
    destruct (InLeapYear_cases (y' + 1)) as [[-> _] | [_ Hc]]; [reflexivity |].
    unfold y' in Hc. exfalso. div_lia. }
  pose proof (month_day doy (Gregorian.DayFromYear y') (Gregorian.DayFromYear (y' + 1)) day
                (Gregorian.InLeapYear y') (Gregorian.InLeapYear (y' + 1))
                Hdoy Hleap' Hday Hj1) as Hmd.
  cbv zeta in Hmd. unfold Gregorian.dayOfDate.
  set (mp := (5 * doy + 2) / 153) in *.
  set (m := if mp <? 10 then mp + 3 else mp - 9) in *.
  destruct (Z.leb_spec m 2) as [Hle | Hgt].
  - replace (yoe + 1 + 400 * era) with (y' + 1) by (unfold y'; lia). exact Hmd.
  - replace (yoe + 0 + 400 * era) with y' by (unfold y'; lia). exact Hmd.
Qed.

(** For the years 0000 to 9999 the date part of the ISO text spells the
    date of the clock's day. *)
Lemma isoDate_reads_back (tv : Z) :
  -62167219200000 <= tv <= 253402300799999 ->
  exists y m d,
    Gregorian.readCalendarDate (JSDate.isoDate tv) = Some (y, m, d) /\
    1 <= m <= 12 /\ 1 <= d <= Gregorian.DaysInMonth (Gregorian.InLeapYear y) m /\
    86400000 * Gregorian.dayOfDate y m d <= tv < 86400000 * (Gregorian.dayOfDate y m d + 1).
Proof.
  intros H.
  pose proof (civilFromDay_range _ (Day_range tv H)) as Hr.
  pose proof (civilFromDay_correct (JSDate.Day tv)) as Hc.
  unfold JSDate.isoDate, JSDate.yearString, JSDate.YearFromTime,
    JSDate.MonthFromTime, JSDate.DateFromTime.
  destruct (JSDate.civilFromDay (JSDate.Day tv)) as [[y m] d].
  destruct Hr as (Hy & Hm & Hd). destruct Hc as (_ & Hdim & Hday).
  exists y, m, d. simpl fst; simpl snd.
  replace (m - 1 + 1) with m by lia.
  destruct (Z.leb_spec 0 y); [| lia]. destruct (Z.leb_spec y 9999); [| lia].
  simpl andb. cbv iota.
  rewrite pad4_digits by lia. rewrite !pad2_digits by lia.
  split; [| split; [exact Hm | split; [exact Hdim |]]].
  - match goal with
    | |- Gregorian.readCalendarDate ?s = _ =>
        change s with
          (String (JSDate.digitChar (y / 1000)) (String (JSDate.digitChar (y / 100 mod 10))
            (String (JSDate.digitChar (y / 10 mod 10)) (String (JSDate.digitChar (y mod 10))
              (String "-" (String (JSDate.digitChar (m / 10))
                (String (JSDate.digitChar (m mod 10))
                  (String "-" (String (JSDate.digitChar (d / 10))
                    (String (JSDate.digitChar (d mod 10)) ""))))))))))
    end.
    unfold Gregorian.readCalendarDate. cbv beta iota. cbn [forallb].
    rewrite !isDigit_digitChar by div_lia.
    rewrite !digitOf_digitChar by div_lia. cbn [andb]. cbv iota.
    f_equal. f_equal; [f_equal |]; div_lia.
  - rewrite Hday. unfold JSDate.Day, JSDate.msPerDay. div_lia.
Qed.

(** C6 (as amended): on every successful create whose clock lies within
    the years 0000 to 9999, the clock is read once, during that create,
    and the date written is a text YYYY-MM-DD, without time of day and
    without zone designator, that spells the Gregorian date of the UTC
    day the clock value falls in: it is the part of the clock's ISO text
    before the "T". On every successful update no clock is read and the
    one statement sent sets customer_id, amount and status where the id
    is the [id] argument; on the table that statement keeps every row's
    id and date and every row with another id. *)
Theorem create_date_and_update_fields {Store : Type} `{!Database Store}
    (prevState : State) (id : string) (formData : FormData) (clk : Z) (st : Store) :
  (forall data st1,
     -62167219200000 <= clk <= 253402300799999 ->
     Zod.safeParse Later.CreateInvoice (rawInvoice formData) = Zod.SafeParseSuccess data ->
     exec (insertStatement data clk) st = inr st1 ->
     exists date time y m d,
       Later.createInvoice prevState formData clk st =
         (inl (NEXT_REDIRECT "/dashboard/invoices"), st1,
          [ClockRead clk; TryEnter;
           Wrote (INSERT_INTO_invoices (Zod.customerId data) (Zod.amount data * 100)%float
                    (Zod.status data) date);
           TryLeave; RevalidatePath "/dashboard/invoices";
           Redirect "/dashboard/invoices"]) /\
       JSDate.toISOString clk = date +:+ String "T" time /\
       JSDate.isCalendarDate date = true /\
       Gregorian.readCalendarDate date = Some (y, m, d) /\
       1 <= m <= 12 /\ 1 <= d <= Gregorian.DaysInMonth (Gregorian.InLeapYear y) m /\
       86400000 * Gregorian.dayOfDate y m d <= clk <
       86400000 * (Gregorian.dayOfDate y m d + 1)) /\
  (forall data st2,
     Zod.safeParse Later.UpdateInvoice (rawInvoice formData) = Zod.SafeParseSuccess data ->
     exec (updateStatement data id) st = inr st2 ->
     Later.updateInvoice id formData clk st =
       (inl (NEXT_REDIRECT "/dashboard/invoices"), st2,
        [TryEnter;
         Wrote (UPDATE_invoices (Zod.customerId data) (Zod.amount data * 100)%float
                  (Zod.status data) id);
         TryLeave; RevalidatePath "/dashboard/invoices"; Redirect "/dashboard/invoices"])) /\
  (forall (data : Zod.InvoiceData) (pg : Pg.Postgres),
     let pg' := Pg.run (updateStatement data id) pg in
     map Pg.id (Pg.invoices pg') = map Pg.id (Pg.invoices pg) /\
     map Pg.date (Pg.invoices pg') = map Pg.date (Pg.invoices pg) /\
     (forall r, r ∈ Pg.invoices pg -> Pg.id r <> id -> r ∈ Pg.invoices pg') /\
     (forall r', r' ∈ Pg.invoices pg' -> Pg.id r' = id ->
        Pg.customer_id r' = Zod.customerId data /\
        Pg.amount r' = (Zod.amount data * 100)%float /\
        Pg.status r' = Zod.status data)).
Proof.
  split; [| split].
  - intros data st1 Hclk Hp Hx1.
    destruct (isoDate_reads_back clk Hclk) as (y & m & d & Hread & Hm & Hd & Hday).
    exists (JSDate.isoDate clk), (JSDate.isoTime clk), y, m, d.
    split; [| split; [reflexivity | split; [apply isoDate_isCalendarDate, Hclk |]]].
    + rewrite (later_create_ok prevState _ _ _ _ _ Hp Hx1).
      unfold insertStatement. rewrite split_toISOString by exact Hclk. reflexivity.
    + auto.
  - intros data st2 Hp Hx2. apply (later_update_ok _ _ _ _ _ _ Hp Hx2).
  - intros data pg. simpl. apply update_rows.
Qed.

Lemma create_date_and_update_fields_witness :
  (exists date time y m d,
     Later.createInvoice Sample.prevState (Sample.form "49.99") Sample.clock Sample.healthy =
       (inl (NEXT_REDIRECT "/dashboard/invoices"),
        Pg.run (INSERT_INTO_invoices "c1" 4999%float "paid" "2025-12-05") Sample.healthy,
        [ClockRead Sample.clock; TryEnter;
         Wrote (INSERT_INTO_invoices "c1" (0x1.8feb851eb851fp+5 * 100)%float "paid" date);
         TryLeave; RevalidatePath "/dashboard/invoices"; Redirect "/dashboard/invoices"]) /\
     JSDate.toISOString Sample.clock = date +:+ String "T" time /\
     JSDate.isCalendarDate date = true /\
     Gregorian.readCalendarDate date = Some (y, m, d) /\
     1 <= m <= 12 /\ 1 <= d <= Gregorian.DaysInMonth (Gregorian.InLeapYear y) m /\
     86400000 * Gregorian.dayOfDate y m d <= Sample.clock <
     86400000 * (Gregorian.dayOfDate y m d + 1)) /\
  Later.updateInvoice "inv-1" (Sample.form "49.99") Sample.clock Fk.empty =
    (inl (NEXT_REDIRECT "/dashboard/invoices"),
     {| Fk.carried := [UPDATE_invoices "c1" 4999%float "paid" "inv-1"] |},
     [TryEnter; Wrote (UPDATE_invoices "c1" (0x1.8feb851eb851fp+5 * 100)%float "paid" "inv-1");
      TryLeave; RevalidatePath "/dashboard/invoices"; Redirect "/dashboard/invoices"]).
Proof.
  split.
  - refine (proj1 (create_date_and_update_fields Sample.prevState "inv-1"
                     (Sample.form "49.99") Sample.clock Sample.healthy)
              {| Zod.customerId := "c1"; Zod.amount := 0x1.8feb851eb851fp+5%float;
                 Zod.status := "paid" |}
              (Pg.run (INSERT_INTO_invoices "c1" 4999%float "paid" "2025-12-05")
                 Sample.healthy) _ _ _).
    + unfold Sample.clock. lia.
    + vm_compute. reflexivity.
    + vm_compute. reflexivity.
  - refine (proj1 (proj2 (create_date_and_update_fields Sample.prevState "inv-1"
                            (Sample.form "49.99") Sample.clock Fk.empty))
              {| Zod.customerId := "c1"; Zod.amount := 0x1.8feb851eb851fp+5%float;
                 Zod.status := "paid" |}
              {| Fk.carried := [UPDATE_invoices "c1" 4999%float "paid" "inv-1"] |} _ _).
    + vm_compute. reflexivity.
    + vm_compute. reflexivity.
Defined.

(** C6, as stated, fails beyond the year 9999: at the first millisecond
    of the year 10000 the date written is the ISO text's expanded year
    form, which is not of the form YYYY-MM-DD. *)
Lemma create_date_beyond_year_9999 :
  (Later.createInvoice Sample.prevState (Sample.form "49.99") 253402300800000
     Sample.healthy).2 =
    [ClockRead 253402300800000; TryEnter;
     Wrote (INSERT_INTO_invoices "c1" 4999%float "paid" "+010000-01-01"); TryLeave;
     RevalidatePath "/dashboard/invoices"; Redirect "/dashboard/invoices"] /\
  JSDate.toISOString 253402300800000 = "+010000-01-01T00:00:00.000Z" /\
  JSDate.isCalendarDate "+010000-01-01" = false /\
  Gregorian.readCalendarDate "+010000-01-01" = None.
Proof. repeat split; vm_compute; reflexivity. Qed.

(** ** Deletes *)




(** C8: every delete whose statement the store carries out issues the
    cache signal for the invoices path and no navigation signal, and
    returns, in both variants; every create and every update whose
    statement the store carries out issues the same cache signal and
    then the navigation signal, which ends it with the redirect. *)
Theorem delete_revalidates_without_redirect {Store : Type} `{!Database Store}
    (prevState : State) (id : string) (formData : FormData) (clk : Z) (st : Store) :
  (forall st0,
     exec (DELETE_FROM_invoices id) st = inr st0 ->
     Earlier.deleteInvoice id clk st =
       (inr deletedSuccessfully, st0,
        [TryEnter; Wrote (DELETE_FROM_invoices id); RevalidatePath "/dashboard/invoices";
         TryLeave]) /\
     Later.deleteInvoice id clk st =
       (inr tt, st0,
        [TryEnter; Wrote (DELETE_FROM_invoices id); RevalidatePath "/dashboard/invoices";
         TryLeave])) /\
  (forall data st1,
     Zod.safeParse Earlier.CreateInvoice (rawInvoice formData) = Zod.SafeParseSuccess data ->
     exec (insertStatement data clk) st = inr st1 ->
     Earlier.createInvoice formData clk st =
       (inl (NEXT_REDIRECT "/dashboard/invoices"), st1,
        [TryEnter; ClockRead clk; Wrote (insertStatement data clk); TryLeave;
         RevalidatePath "/dashboard/invoices"; Redirect "/dashboard/invoices"])) /\
  (forall data st2,
     Zod.safeParse Earlier.UpdateInvoice (rawInvoice formData) = Zod.SafeParseSuccess data ->
     exec (updateStatement data id) st = inr st2 ->
     Earlier.updateInvoice id formData clk st =
       (inl (NEXT_REDIRECT "/dashboard/invoices"), st2,
        [TryEnter; Wrote (updateStatement data id); TryLeave;
         RevalidatePath "/dashboard/invoices"; Redirect "/dashboard/invoices"])) /\
  (forall data st1,
     Zod.safeParse Later.CreateInvoice (rawInvoice formData) = Zod.SafeParseSuccess data ->
     exec (insertStatement data clk) st = inr st1 ->
     Later.createInvoice prevState formData clk st =
       (inl (NEXT_REDIRECT "/dashboard/invoices"), st1,
        [ClockRead clk; TryEnter; Wrote (insertStatement data clk); TryLeave;
         RevalidatePath "/dashboard/invoices"; Redirect "/dashboard/invoices"])) /\
  (forall data st2,
     Zod.safeParse Later.UpdateInvoice (rawInvoice formData) = Zod.SafeParseSuccess data ->
     exec (updateStatement data id) st = inr st2 ->
     Later.updateInvoice id formData clk st =
       (inl (NEXT_REDIRECT "/dashboard/invoices"), st2,
        [TryEnter; Wrote (updateStatement data id); TryLeave;
         RevalidatePath "/dashboard/invoices"; Redirect "/dashboard/invoices"])).
Proof.
  split; [| split; [| split; [| split]]].
  - intros st0 Hx0. split; [apply earlier_delete_ok, Hx0 | apply later_delete_ok, Hx0].
  - intros data st1 Hp Hx. apply (earlier_create_ok _ _ _ _ _ Hp Hx).
  - intros data st2 Hp Hx. apply (earlier_update_ok _ _ _ _ _ _ Hp Hx).
  - intros data st1 Hp Hx. apply (later_create_ok prevState _ _ _ _ _ Hp Hx).
  - intros data st2 Hp Hx. apply (later_update_ok _ _ _ _ _ _ Hp Hx).
Qed.

(** The delete on a store that refuses every INSERT, and on a table
    without the row. *)
Lemma delete_revalidates_without_redirect_witness :
  (Earlier.deleteInvoice "inv-1" Sample.clock Fk.empty =
     (inr deletedSuccessfully, {| Fk.carried := [DELETE_FROM_invoices "inv-1"] |},
      [TryEnter; Wrote (DELETE_FROM_invoices "inv-1"); RevalidatePath "/dashboard/invoices";
       TryLeave]) /\
   Later.deleteInvoice "inv-1" Sample.clock Fk.empty =
     (inr tt, {| Fk.carried := [DELETE_FROM_invoices "inv-1"] |},
      [TryEnter; Wrote (DELETE_FROM_invoices "inv-1"); RevalidatePath "/dashboard/invoices";
       TryLeave])) /\
  (Earlier.deleteInvoice "inv-1" Sample.clock Sample.healthy =
     (inr deletedSuccessfully, Pg.run (DELETE_FROM_invoices "inv-1") Sample.healthy,
      [TryEnter; Wrote (DELETE_FROM_invoices "inv-1"); RevalidatePath "/dashboard/invoices";
       TryLeave]) /\
   Later.deleteInvoice "inv-1" Sample.clock Sample.healthy =
     (inr tt, Pg.run (DELETE_FROM_invoices "inv-1") Sample.healthy,
      [TryEnter; Wrote (DELETE_FROM_invoices "inv-1"); RevalidatePath "/dashboard/invoices";
       TryLeave])) /\
  Later.createInvoice Sample.prevState (Sample.form "49.99") Sample.clock Sample.healthy =
    (inl (NEXT_REDIRECT "/dashboard/invoices"),
     Pg.run (INSERT_INTO_invoices "c1" 4999%float "paid" "2025-12-05") Sample.healthy,
     [ClockRead Sample.clock; TryEnter;
      Wrote (insertStatement {| Zod.customerId := "c1"; Zod.amount := 0x1.8feb851eb851fp+5%float;
                                Zod.status := "paid" |} Sample.clock);
      TryLeave; RevalidatePath "/dashboard/invoices"; Redirect "/dashboard/invoices"]) /\
  Later.updateInvoice "inv-1" (Sample.form "49.99") Sample.clock Sample.healthy =
    (inl (NEXT_REDIRECT "/dashboard/invoices"),
     Pg.run (UPDATE_invoices "c1" 4999%float "paid" "inv-1") Sample.healthy,
     [TryEnter;
      Wrote (updateStatement {| Zod.customerId := "c1"; Zod.amount := 0x1.8feb851eb851fp+5%float;
                                Zod.status := "paid" |} "inv-1");
      TryLeave; RevalidatePath "/dashboard/invoices"; Redirect "/dashboard/invoices"]).
Proof.
  split; [| split; [| split]].
  - apply (proj1 (delete_revalidates_without_redirect Sample.prevState "inv-1"
                    Sample.twoInvalid Sample.clock Fk.empty)).
    reflexivity.
  - apply (proj1 (delete_revalidates_without_redirect Sample.prevState "inv-1"
                    Sample.twoInvalid Sample.clock Sample.healthy)).
    reflexivity.
  - apply (proj1 (proj2 (proj2 (proj2
             (delete_revalidates_without_redirect Sample.prevState "inv-1"
                (Sample.form "49.99") Sample.clock Sample.healthy))))).
    + vm_compute. reflexivity.
    + vm_compute. reflexivity.
  - apply (proj2 (proj2 (proj2 (proj2
             (delete_revalidates_without_redirect Sample.prevState "inv-1"
                (Sample.form "49.99") Sample.clock Sample.healthy))))).
    + vm_compute. reflexivity.
    + vm_compute. reflexivity.
Defined.

(** ** An absent amount *)

Lemma later_parseNumber_absent :
  Zod.parseNumber (Zod.amount_schema Later.CreateInvoice) "amount" None =
  Zod.INVALID [ {| Zod.code := Zod.too_small; Zod.path := ["amount"];
                   Zod.message := "Please enter an amount greater than $0." |} ].
Proof. vm_compute. reflexivity. Qed.

Lemma later_amount_absent (input : Zod.RawInvoice) :
  Zod.raw_amount input = None ->
  exists error,
    Zod.safeParse Later.CreateInvoice input = Zod.SafeParseError error /\
    Zod.messagesAt "amount" error = ["Please enter an amount greater than $0."].
Proof.
  destruct input as [c a s]. simpl. intros ->.
  unfold Zod.safeParse. simpl Zod.raw_amount. simpl Zod.raw_customerId. simpl Zod.raw_status.
  rewrite later_parseNumber_absent.
  destruct (Zod.parseString _ _ c) as [cv | ci] eqn:Hc;
    destruct (Zod.parseEnum _ _ s) as [sv | si] eqn:Hs;
    try (apply parseString_INVALID in Hc as (? & ? & ->));
    try (apply parseEnum_INVALID in Hs as (? & ? & ->));
    eexists; (split; [reflexivity |]); reflexivity.
Qed.

(** C9: when the form has no amount entry, [formData.get] yields [null],
    which [Number] turns into 0; [createInvoice] then rejects the
    submission, and the amount entry of its Field Error Map holds
    exactly the message of the greater-than-zero check. *)
Theorem absent_amount_reports_gt_message {Store : Type} `{!Database Store}
    (prevState : State) (formData : FormData) (clk : Z) (st : Store) :
  FormData_get "amount" formData = None ->
  Number (FormData_get "amount" formData) = 0%float /\
  exists fieldErrors,
    Later.createInvoice prevState formData clk st =
      (inr (missingFieldsCreate fieldErrors), st, []) /\
    fieldErrors !! "amount" = Some ["Please enter an amount greater than $0."].
Proof.
  intros Habsent. split; [rewrite Habsent; reflexivity |].
  destruct (later_amount_absent (rawInvoice formData) Habsent) as (error & Hp & Hm).
  exists (Zod.flatten error). split.
  - apply later_create_invalid, Hp.
  - rewrite flatten_lookup, Hm. reflexivity.
Qed.

Lemma absent_amount_reports_gt_message_witness :
  exists fieldErrors,
    Later.createInvoice Sample.prevState
      [("customerId", FormString "c1"); ("status", FormString "paid")]
      Sample.clock Sample.healthy =
      (inr (missingFieldsCreate fieldErrors), Sample.healthy, []) /\
    fieldErrors !! "amount" = Some ["Please enter an amount greater than $0."].
Proof.
  apply (absent_amount_reports_gt_message Sample.prevState
           [("customerId", FormString "c1"); ("status", FormString "paid")]
           Sample.clock Sample.healthy).
  reflexivity.
Defined.

(** ** The earlier variant: one message for two kinds of failure *)

(** C10: in the earlier variant the parse stands inside the [try] block
    of the write, so on every invalid submission, whatever the state of
    the store, [createInvoice] sends no statement, logs the validation
    error and returns the message "Database Error: Failed to Create
    Invoice." and no Field Error Map: the very result it returns
    whenever a store fails the INSERT of a valid submission. *)
Theorem earlier_validation_failure_as_database_error {Store : Type} `{!Database Store}
    (formData : FormData) (clk : Z) (st : Store) :
  Zod.invalidFields Earlier.CreateInvoice (rawInvoice formData) <> [] ->
  (exists error,
     Zod.safeParse Earlier.CreateInvoice (rawInvoice formData) = Zod.SafeParseError error /\
     Earlier.createInvoice formData clk st =
       (inr {| errors := None;
               message := Some "Database Error: Failed to Create Invoice." |},
        st, [TryEnter; Catch; ConsoleError (ZodErr error)])) /\
  (forall (Store' : Type) (database' : Database Store') (formData' : FormData) (clk' : Z)
          (st' : Store') (data : Zod.InvoiceData) (text : string),
     Zod.safeParse Earlier.CreateInvoice (rawInvoice formData') = Zod.SafeParseSuccess data ->
     exec (insertStatement data clk') st' = inl text ->
     (Earlier.createInvoice formData clk st).1.1 =
     (Earlier.createInvoice formData' clk' st').1.1).
Proof.
  intros Hne.
  destruct (invalid_safeParse_error _ _ Hne) as (error & Hp & _).
  rewrite (earlier_create_invalid _ _ _ _ Hp).
  split.
  - exists error. split; [exact Hp | reflexivity].
  - intros Store' database' formData' clk' st' data text Hp' Hx.
    rewrite (earlier_create_write_fails _ _ _ _ _ Hp' Hx). reflexivity.
Qed.

(** An invalid submission to a store that is up, against a valid one to
    a store that is down and to one that refuses the INSERT. *)
Lemma earlier_validation_failure_as_database_error_witness :
  (exists error,
     Zod.safeParse Earlier.CreateInvoice (rawInvoice Sample.twoInvalid) =
       Zod.SafeParseError error /\
     Earlier.createInvoice Sample.twoInvalid Sample.clock Sample.healthy =
       (inr {| errors := None;
               message := Some "Database Error: Failed to Create Invoice." |},
        Sample.healthy, [TryEnter; Catch; ConsoleError (ZodErr error)])) /\
  (Earlier.createInvoice Sample.twoInvalid Sample.clock Sample.healthy).1.1 =
  (Earlier.createInvoice (Sample.form "49.99") Sample.clock Sample.down).1.1 /\
  (Earlier.createInvoice Sample.twoInvalid Sample.clock Sample.healthy).1.1 =
  (Earlier.createInvoice (Sample.form "49.99") Sample.clock Fk.empty).1.1.
Proof.
  assert (Hne : Zod.invalidFields Earlier.CreateInvoice (rawInvoice Sample.twoInvalid) <> [])
    by (vm_compute; discriminate).
  destruct (earlier_validation_failure_as_database_error Sample.twoInvalid Sample.clock
              Sample.healthy Hne) as [Hinvalid Hsame].
  split; [exact Hinvalid | split].
  - apply (Hsame Pg.Postgres Pg.database (Sample.form "49.99") Sample.clock Sample.down
             {| Zod.customerId := "c1"; Zod.amount := 0x1.8feb851eb851fp+5%float;
                Zod.status := "paid" |}
             "connect ECONNREFUSED 10.0.0.5:5432").
    + vm_compute. reflexivity.
    + reflexivity.
  - apply (Hsame Fk.Journal Fk.database (Sample.form "49.99") Sample.clock Fk.empty
             {| Zod.customerId := "c1"; Zod.amount := 0x1.8feb851eb851fp+5%float;
                Zod.status := "paid" |}
             "insert or update on table invoices violates foreign key constraint").
    + vm_compute. reflexivity.
    + reflexivity.
Defined.

(** * Further properties of the actions *)

(** ** What the two schemas accept *)

(** For a number, "not at most 0" is "greater than 0", and a value
    greater than 0 is a number. *)
Lemma float_gt_zero (x : float) :
  (0 <? x)%float = true <-> is_nan x = false /\ (x <=? 0)%float = false.
Proof.
  unfold is_nan.
  rewrite FloatAxioms.ltb_spec, FloatAxioms.leb_spec, FloatAxioms.eqb_spec.
  change (Prim2SF 0) with (S754_zero false).
  destruct (Prim2SF x) as [s | s | | s m e]; try destruct s; simpl;
    unfold SFltb, SFleb, SFeqb; simpl;
    try rewrite Z.compare_refl; try rewrite Pos.compare_refl; simpl;
    intuition congruence.
Qed.

Lemma enum_pending_paid (s : string) :
  bool_decide (s ∈ ["pending"; "paid"]) = true <-> s = "pending" \/ s = "paid".
Proof.
  rewrite bool_decide_eq_true, !elem_of_cons, elem_of_nil. tauto.
Qed.

(** X1: the later schema accepts a submission exactly when the customer
    entry is a string (any string, the empty one included), the amount
    coerces to a number greater than 0 and the status entry is the string
    "pending" or "paid"; the data are then that string, that number and
    that status. *)
Theorem later_schema_accepts_iff (input : Zod.RawInvoice) (data : Zod.InvoiceData) :
  Zod.safeParse Later.CreateInvoice input = Zod.SafeParseSuccess data <->
  Zod.raw_customerId input = Some (FormString (Zod.customerId data)) /\
  Zod.amount data = Number (Zod.raw_amount input) /\
  (0 <? Zod.amount data)%float = true /\
  Zod.raw_status input = Some (FormString (Zod.status data)) /\
  (Zod.status data = "pending" \/ Zod.status data = "paid").
Proof.
  destruct input as [c a s], data as [cv av sv].
  unfold Zod.safeParse, Later.CreateInvoice, Zod.omit_id_date.
  simpl. unfold Zod.parseString, Zod.parseNumber, Zod.parseEnum. simpl.
  split.
  - destruct c as [[cs | cf] |]; try discriminate;
      destruct (is_nan (Number a)) eqn:Hn; try discriminate;
      destruct (Number a <=? 0)%float eqn:Hl; try discriminate;
      destruct s as [[ss | sf] |]; try discriminate;
      destruct (bool_decide (ss ∈ ["pending"; "paid"])) eqn:He; try discriminate.
    intros H. injection H as <- <- <-.
    split; [reflexivity | split; [reflexivity | split]].
    + apply float_gt_zero. split; assumption.
    + split; [reflexivity | apply enum_pending_paid, He].
  - intros (-> & -> & Hpos & -> & He).
    apply float_gt_zero in Hpos as [Hn Hl]. rewrite Hn, Hl.
    apply enum_pending_paid in He. rewrite He. reflexivity.
Qed.

(** X2: the earlier schema accepts a submission exactly when the
    customer entry is a string, the amount coerces to a number (anything
    but NaN: zero, negative and infinite amounts pass) and the status
    entry is the string "pending" or "paid". *)
Theorem earlier_schema_accepts_iff (input : Zod.RawInvoice) (data : Zod.InvoiceData) :
  Zod.safeParse Earlier.CreateInvoice input = Zod.SafeParseSuccess data <->
  Zod.raw_customerId input = Some (FormString (Zod.customerId data)) /\
  Zod.amount data = Number (Zod.raw_amount input) /\
  is_nan (Zod.amount data) = false /\
  Zod.raw_status input = Some (FormString (Zod.status data)) /\
  (Zod.status data = "pending" \/ Zod.status data = "paid").
Proof.
  destruct input as [c a s], data as [cv av sv].
  unfold Zod.safeParse, Earlier.CreateInvoice, Zod.omit_id_date.
  simpl. unfold Zod.parseString, Zod.parseNumber, Zod.parseEnum. simpl.
  split.
  - destruct c as [[cs | cf] |]; try discriminate;
      destruct (is_nan (Number a)) eqn:Hn; try discriminate;
      destruct s as [[ss | sf] |]; try discriminate;
      destruct (bool_decide (ss ∈ ["pending"; "paid"])) eqn:He; try discriminate.
    intros H. injection H as <- <- <-.
    repeat split; try assumption. apply enum_pending_paid, He.
  - intros (-> & -> & Hn & -> & He).
    rewrite Hn. apply enum_pending_paid in He. rewrite He. reflexivity.
Qed.

(** ** The messages of the Field Error Map *)

Lemma safeParse_error_issues (schema : Zod.InvoiceShape) (input : Zod.RawInvoice)
    (error : Zod.ZodError) :
  Zod.safeParse schema input = Zod.SafeParseError error ->
  error =
  Zod.issuesOf (Zod.parseString (Zod.customerId_schema schema) "customerId"
                  (Zod.raw_customerId input)) ++
  Zod.issuesOf (Zod.parseNumber (Zod.amount_schema schema) "amount" (Zod.raw_amount input)) ++
  Zod.issuesOf (Zod.parseEnum (Zod.status_schema schema) "status" (Zod.raw_status input)).
Proof.
  unfold Zod.safeParse.
  destruct (Zod.parseString _ _ _); destruct (Zod.parseNumber _ _ _);
    destruct (Zod.parseEnum _ _ _); intros H; inversion H; reflexivity.
Qed.

Lemma invalidFields_readNames (schema : Zod.InvoiceShape) (input : Zod.RawInvoice) (k : string) :
  k ∈ Zod.invalidFields schema input -> k ∈ readNames.
Proof.
  unfold Zod.invalidFields, readNames.
  destruct (Zod.parseString _ _ _); destruct (Zod.parseNumber _ _ _);
    destruct (Zod.parseEnum _ _ _); simpl;
    rewrite ?elem_of_cons, ?elem_of_nil; tauto.
Qed.

(** The entries of the map the later [createInvoice] returns, key by key. *)
Lemma later_field_errors (input : Zod.RawInvoice) (error : Zod.ZodError) :
  Zod.safeParse Later.CreateInvoice input = Zod.SafeParseError error ->
  Zod.flatten error !! "customerId" =
    match Zod.raw_customerId input with
    | Some (FormString _) => None
    | _ => Some ["Please select a customer."]
    end /\
  Zod.flatten error !! "amount" =
    (if is_nan (Number (Zod.raw_amount input))
     then Some ["Expected number, received nan"]
     else if (Number (Zod.raw_amount input) <=? 0)%float
          then Some ["Please enter an amount greater than $0."]
          else None) /\
  Zod.flatten error !! "status" =
    match Zod.raw_status input with
    | Some (FormString s) =>
        if bool_decide (s ∈ ["pending"; "paid"]) then None
        else Some ["Invalid enum value. Expected 'pending' | 'paid', received '" +:+ s +:+ "'"]
    | _ => Some ["Please select an invoice status."]
    end /\
  forall k, k ∉ readNames -> Zod.flatten error !! k = None.
Proof.
  intros Hp.
  assert (Hother : forall k, k ∉ readNames -> Zod.flatten error !! k = None).
  { intros k Hk. apply eq_None_not_Some. intros Hsome. apply Hk.
    apply flatten_is_Some in Hsome.
    pose proof (safeParse_issueKeys Later.CreateInvoice input) as Hkeys.
    rewrite Hp in Hkeys. destruct Hkeys as [Hkeys _]. rewrite Hkeys in Hsome.
    eapply invalidFields_readNames, Hsome. }
  apply safeParse_error_issues in Hp. subst error.
  rewrite !flatten_lookup.
  destruct input as [c a s].
  unfold Later.CreateInvoice, Zod.omit_id_date. simpl.
  unfold Zod.parseString, Zod.parseNumber, Zod.parseEnum. simpl.
  repeat split; try exact Hother;
    destruct c as [[cs | cf] |];
    destruct (is_nan (Number a));
    destruct (Number a <=? 0)%float;
    destruct s as [[ss | sf] |];
    try destruct (bool_decide (ss ∈ ["pending"; "paid"]));
    reflexivity.
Qed.

(** X3: for every rejected submission the Field Error Map holds at most
    one message per field and no other key: "Please select a customer."
    when the customer entry is not a string; "Expected number, received
    nan" when the amount does not coerce to a number and the
    greater-than-zero message when it coerces to a number at most 0;
    "Please select an invoice status." when the status entry is not a
    string and zod's default enum message, which quotes the submitted
    text, when it is a string other than "pending" and "paid". *)
Theorem field_error_messages {Store : Type} `{!Database Store}
    (prevState : State) (formData : FormData) (clk : Z) (st : Store) :
  Zod.invalidFields Later.CreateInvoice (rawInvoice formData) <> [] ->
  exists fieldErrors,
    Later.createInvoice prevState formData clk st =
      (inr (missingFieldsCreate fieldErrors), st, []) /\
    fieldErrors !! "customerId" =
      match FormData_get "customerId" formData with
      | Some (FormString _) => None
      | _ => Some ["Please select a customer."]
      end /\
    fieldErrors !! "amount" =
      (if is_nan (Number (FormData_get "amount" formData))
       then Some ["Expected number, received nan"]
       else if (Number (FormData_get "amount" formData) <=? 0)%float
            then Some ["Please enter an amount greater than $0."]
            else None) /\
    fieldErrors !! "status" =
      match FormData_get "status" formData with
      | Some (FormString s) =>
          if bool_decide (s ∈ ["pending"; "paid"]) then None
          else Some ["Invalid enum value. Expected 'pending' | 'paid', received '" +:+ s +:+ "'"]
      | _ => Some ["Please select an invoice status."]
      end /\
    forall k, k ∉ readNames -> fieldErrors !! k = None.
Proof.
  intros Hne.
  destruct (invalid_safeParse_error _ _ Hne) as (error & Hp & _).
  exists (Zod.flatten error). split.
  - apply later_create_invalid, Hp.
  - apply (later_field_errors (rawInvoice formData) error Hp).
Qed.

Lemma field_error_messages_witness :
  exists fieldErrors,
    Later.createInvoice Sample.prevState Sample.twoInvalid Sample.clock Sample.healthy =
      (inr (missingFieldsCreate fieldErrors), Sample.healthy, []) /\
    fieldErrors !! "customerId" = None /\
    fieldErrors !! "amount" = Some ["Please enter an amount greater than $0."] /\
    fieldErrors !! "status" =
      Some ["Invalid enum value. Expected 'pending' | 'paid', received 'draft'"].
Proof.
  destruct (field_error_messages Sample.prevState Sample.twoInvalid Sample.clock
              Sample.healthy) as (fieldErrors & Hrun & Hc & Ha & Hs & _).
  - vm_compute. discriminate.
  - exists fieldErrors. repeat split; assumption.
Defined.

(** Whatever the later schema accepts has an amount that is a number and
    not at most 0. *)
Lemma later_schema_accepts_iff_amount (input : Zod.RawInvoice) (data : Zod.InvoiceData) :
  Zod.safeParse Later.CreateInvoice input = Zod.SafeParseSuccess data ->
  (if is_nan (Number (Zod.raw_amount input)) then true
   else (Number (Zod.raw_amount input) <=? 0)%float) = false.
Proof.
  destruct input as [c a s].
  unfold Zod.safeParse, Later.CreateInvoice, Zod.omit_id_date.
  simpl. unfold Zod.parseString, Zod.parseNumber, Zod.parseEnum. simpl.
  destruct c as [[cs | cf] |]; try discriminate;
    destruct (is_nan (Number a)); try discriminate;
    destruct (Number a <=? 0)%float; try discriminate.
  reflexivity.
Qed.

(** ** A blank amount *)

Lemma trimStart_blank (s : string) : isBlank s = true -> JS.trimStart s = "".
Proof.
  induction s as [| c s IH]; simpl; [reflexivity |].
  intros H. apply andb_true_iff in H as [Hc Hs]. rewrite Hc. apply IH, Hs.
Qed.

(** [Number] of an empty or all-blank text is 0. *)
Lemma StringToNumber_blank (s : string) :
  isBlank s = true -> JS.StringToNumber s = 0%float.
Proof.
  intros H. unfold JS.StringToNumber, JS.trim.
  rewrite trimStart_blank by exact H. reflexivity.
Qed.

(** X4: an amount entry that is empty or holds only white space coerces
    to 0, so [createInvoice] rejects the submission and the amount entry
    of the Field Error Map is the greater-than-zero message, not a
    message about a missing or malformed number. *)
Theorem blank_amount_reports_gt_message {Store : Type} `{!Database Store}
    (prevState : State) (formData : FormData) (clk : Z) (st : Store) (s : string) :
  FormData_get "amount" formData = Some (FormString s) ->
  isBlank s = true ->
  exists fieldErrors,
    Later.createInvoice prevState formData clk st =
      (inr (missingFieldsCreate fieldErrors), st, []) /\
    fieldErrors !! "amount" = Some ["Please enter an amount greater than $0."].
Proof.
  intros Hget Hblank.
  assert (Hzero : Number (FormData_get "amount" formData) = 0%float)
    by (rewrite Hget; apply StringToNumber_blank, Hblank).
  destruct (Zod.safeParse Later.CreateInvoice (rawInvoice formData)) as [data | error] eqn:Hp.
  - apply later_schema_accepts_iff_amount in Hp. simpl in Hp.
    rewrite Hzero in Hp. discriminate.
  - exists (Zod.flatten error). split; [apply later_create_invalid, Hp |].
    destruct (later_field_errors _ _ Hp) as (_ & Ha & _).
    simpl in Ha. rewrite Hzero in Ha. exact Ha.
Qed.

Lemma blank_amount_reports_gt_message_witness :
  exists fieldErrors,
    Later.createInvoice Sample.prevState (Sample.form "   ") Sample.clock Sample.healthy =
      (inr (missingFieldsCreate fieldErrors), Sample.healthy, []) /\
    fieldErrors !! "amount" = Some ["Please enter an amount greater than $0."].
Proof.
  apply (blank_amount_reports_gt_message Sample.prevState (Sample.form "   ") Sample.clock
           Sample.healthy "   ").
  - reflexivity.
  - reflexivity.
Defined.

(** ** How the actions end *)

(** X5: the earlier actions never let an error reach their caller. Each
    run of [createInvoice] and [updateInvoice] either carries out no
    statement, leaves the store as it was, issues no signal, logs one
    error and returns the fixed database message, or carries out one
    statement, logs nothing and ends with the redirect to the invoices
    page. [deleteInvoice] always returns: the success message after the
    one DELETE it carried out, the fixed database message otherwise. *)
Theorem earlier_actions_outcomes {Store : Type} `{!Database Store}
    (id : string) (formData : FormData) (clk : Z) (st : Store) :
  (let '(out, st', tr) := Earlier.createInvoice formData clk st in
   match omap written tr with
   | [] => out = inr databaseErrorCreate /\ st' = st /\
           existsb isSignal tr = false /\ length (omap logged tr) = 1%nat
   | [q] => out = inl (NEXT_REDIRECT "/dashboard/invoices") /\ exec q st = inr st' /\
            omap logged tr = []
   | _ => False
   end) /\
  (let '(out, st', tr) := Earlier.updateInvoice id formData clk st in
   match omap written tr with
   | [] => out = inr databaseErrorUpdate /\ st' = st /\
           existsb isSignal tr = false /\ length (omap logged tr) = 1%nat
   | [q] => out = inl (NEXT_REDIRECT "/dashboard/invoices") /\ exec q st = inr st' /\
            omap logged tr = []
   | _ => False
   end) /\
  (let '(out, st', tr) := Earlier.deleteInvoice id clk st in
   match omap written tr with
   | [] => out = inr databaseErrorDelete /\ st' = st /\
           existsb isSignal tr = false /\ length (omap logged tr) = 1%nat
   | [q] => q = DELETE_FROM_invoices id /\ out = inr deletedSuccessfully /\
            exec q st = inr st' /\ omap logged tr = []
   | _ => False
   end).
Proof.
  split; [| split].
  - destruct (Zod.safeParse Earlier.CreateInvoice (rawInvoice formData)) as [d | e] eqn:Hp.
    + destruct (exec (insertStatement d clk) st) as [t | st'] eqn:Hx.
      * rewrite (earlier_create_write_fails _ _ _ _ _ Hp Hx). simpl. auto.
      * rewrite (earlier_create_ok _ _ _ _ _ Hp Hx). simpl. auto.
    + rewrite (earlier_create_invalid _ _ _ _ Hp). simpl. auto.
  - destruct (Zod.safeParse Earlier.UpdateInvoice (rawInvoice formData)) as [d | e] eqn:Hp.
    + destruct (exec (updateStatement d id) st) as [t | st'] eqn:Hx.
      * rewrite (earlier_update_write_fails _ _ _ _ _ _ Hp Hx). simpl. auto.
      * rewrite (earlier_update_ok _ _ _ _ _ _ Hp Hx). simpl. auto.
    + rewrite (earlier_update_invalid _ _ _ _ _ Hp). simpl. auto.
  - destruct (exec (DELETE_FROM_invoices id) st) as [t | st'] eqn:Hx.
    + rewrite (earlier_delete_fails _ _ _ _ Hx). simpl. auto.
    + rewrite (earlier_delete_ok _ _ _ _ Hx). simpl. auto.
Qed.

(** X6: how the later actions end. [createInvoice] returns only on an
    invalid submission (the Field Error Map, store and trace untouched)
    and never throws a validation error; [updateInvoice] never returns:
    it ends with the validation error, the store's error or the
    redirect; [deleteInvoice] returns after the one DELETE it carried out
    and throws nothing but the store's error. An exception other than
    the redirect is logged once, leaves the store as it was and comes
    with no signal; a redirect comes after exactly one statement carried
    out. *)
Theorem later_actions_outcomes {Store : Type} `{!Database Store}
    (prevState : State) (id : string) (formData : FormData) (clk : Z) (st : Store) :
  (let '(out, st', tr) := Later.createInvoice prevState formData clk st in
   match out with
   | inr result =>
       exists error,
         Zod.safeParse Later.CreateInvoice (rawInvoice formData) = Zod.SafeParseError error /\
         result = missingFieldsCreate (Zod.flatten error) /\ st' = st /\ tr = []
   | inl (NEXT_REDIRECT url) =>
       url = "/dashboard/invoices" /\
       exists q, omap written tr = [q] /\ exec q st = inr st'
   | inl (PostgresError text) =>
       st' = st /\ omap written tr = [] /\ omap logged tr = [PostgresError text] /\
       existsb isSignal tr = false
   | inl (ZodErr _) => False
   end) /\
  (let '(out, st', tr) := Later.updateInvoice id formData clk st in
   match out with
   | inr _ => False
   | inl (ZodErr error) =>
       Zod.safeParse Later.UpdateInvoice (rawInvoice formData) = Zod.SafeParseError error /\
       st' = st /\ omap attempted tr = [] /\ omap logged tr = [ZodErr error] /\
       existsb isSignal tr = false
   | inl (PostgresError text) =>
       st' = st /\ omap written tr = [] /\ omap logged tr = [PostgresError text] /\
       existsb isSignal tr = false
   | inl (NEXT_REDIRECT url) =>
       url = "/dashboard/invoices" /\
       exists q, omap written tr = [q] /\ exec q st = inr st'
   end) /\
  (let '(out, st', tr) := Later.deleteInvoice id clk st in
   match out with
   | inr _ =>
       omap written tr = [DELETE_FROM_invoices id] /\
       exec (DELETE_FROM_invoices id) st = inr st' /\ omap logged tr = []
   | inl (PostgresError text) =>
       st' = st /\ omap written tr = [] /\ omap logged tr = [PostgresError text] /\
       existsb isSignal tr = false
   | inl _ => False
   end).
Proof.
  split; [| split].
  - destruct (Zod.safeParse Later.CreateInvoice (rawInvoice formData)) as [d | e] eqn:Hp.
    + destruct (exec (insertStatement d clk) st) as [t | st'] eqn:Hx.
      * rewrite (later_create_write_fails _ _ _ _ _ _ Hp Hx). simpl. auto.
      * rewrite (later_create_ok _ _ _ _ _ _ Hp Hx). simpl. eauto.
    + rewrite (later_create_invalid _ _ _ _ _ Hp). simpl. eauto.
  - destruct (Zod.safeParse Later.UpdateInvoice (rawInvoice formData)) as [d | e] eqn:Hp.
    + destruct (exec (updateStatement d id) st) as [t | st'] eqn:Hx.
      * rewrite (later_update_write_fails _ _ _ _ _ _ Hp Hx). simpl. auto.
      * rewrite (later_update_ok _ _ _ _ _ _ Hp Hx). simpl. eauto.
    + rewrite (later_update_invalid _ _ _ _ _ Hp). simpl. auto.
  - destruct (exec (DELETE_FROM_invoices id) st) as [t | st'] eqn:Hx.
    + rewrite (later_delete_fails _ _ _ _ Hx). simpl. auto.
    + rewrite (later_delete_ok _ _ _ _ Hx). simpl. auto.
Qed.

(** X7: the statements an invocation sends do not depend on the store:
    [createInvoice] and [updateInvoice] send none on an invalid
    submission and otherwise exactly one, the INSERT or UPDATE built
    from the parsed data (the UPDATE on the [id] argument);
    [deleteInvoice] always sends exactly the DELETE of its argument. *)
Theorem statements_sent {Store : Type} `{!Database Store}
    (prevState : State) (id : string) (formData : FormData) (clk : Z) (st : Store) :
  omap attempted (Earlier.createInvoice formData clk st).2 =
    match Zod.safeParse Earlier.CreateInvoice (rawInvoice formData) with
    | Zod.SafeParseSuccess data => [insertStatement data clk]
    | Zod.SafeParseError _ => []
    end /\
  omap attempted (Earlier.updateInvoice id formData clk st).2 =
    match Zod.safeParse Earlier.UpdateInvoice (rawInvoice formData) with
    | Zod.SafeParseSuccess data => [updateStatement data id]
    | Zod.SafeParseError _ => []
    end /\
  omap attempted (Earlier.deleteInvoice id clk st).2 = [DELETE_FROM_invoices id] /\
  omap attempted (Later.createInvoice prevState formData clk st).2 =
    match Zod.safeParse Later.CreateInvoice (rawInvoice formData) with
    | Zod.SafeParseSuccess data => [insertStatement data clk]
    | Zod.SafeParseError _ => []
    end /\
  omap attempted (Later.updateInvoice id formData clk st).2 =
    match Zod.safeParse Later.UpdateInvoice (rawInvoice formData) with
    | Zod.SafeParseSuccess data => [updateStatement data id]
    | Zod.SafeParseError _ => []
    end /\
  omap attempted (Later.deleteInvoice id clk st).2 = [DELETE_FROM_invoices id].
Proof.
  repeat split.
  - destruct (Zod.safeParse Earlier.CreateInvoice (rawInvoice formData)) as [d | e] eqn:Hp.
    + destruct (exec (insertStatement d clk) st) as [t | st'] eqn:Hx.
      * rewrite (earlier_create_write_fails _ _ _ _ _ Hp Hx). reflexivity.
      * rewrite (earlier_create_ok _ _ _ _ _ Hp Hx). reflexivity.
    + rewrite (earlier_create_invalid _ _ _ _ Hp). reflexivity.
  - destruct (Zod.safeParse Earlier.UpdateInvoice (rawInvoice formData)) as [d | e] eqn:Hp.
    + destruct (exec (updateStatement d id) st) as [t | st'] eqn:Hx.
      * rewrite (earlier_update_write_fails _ _ _ _ _ _ Hp Hx). reflexivity.
      * rewrite (earlier_update_ok _ _ _ _ _ _ Hp Hx). reflexivity.
    + rewrite (earlier_update_invalid _ _ _ _ _ Hp). reflexivity.
  - destruct (exec (DELETE_FROM_invoices id) st) as [t | st'] eqn:Hx.
    + rewrite (earlier_delete_fails _ _ _ _ Hx). reflexivity.
    + rewrite (earlier_delete_ok _ _ _ _ Hx). reflexivity.
  - destruct (Zod.safeParse Later.CreateInvoice (rawInvoice formData)) as [d | e] eqn:Hp.
    + destruct (exec (insertStatement d clk) st) as [t | st'] eqn:Hx.
      * rewrite (later_create_write_fails _ _ _ _ _ _ Hp Hx). reflexivity.
      * rewrite (later_create_ok _ _ _ _ _ _ Hp Hx). reflexivity.
    + rewrite (later_create_invalid _ _ _ _ _ Hp). reflexivity.
  - destruct (Zod.safeParse Later.UpdateInvoice (rawInvoice formData)) as [d | e] eqn:Hp.
    + destruct (exec (updateStatement d id) st) as [t | st'] eqn:Hx.
      * rewrite (later_update_write_fails _ _ _ _ _ _ Hp Hx). reflexivity.
      * rewrite (later_update_ok _ _ _ _ _ _ Hp Hx). reflexivity.
    + rewrite (later_update_invalid _ _ _ _ _ Hp). reflexivity.
  - destruct (exec (DELETE_FROM_invoices id) st) as [t | st'] eqn:Hx.
    + rewrite (later_delete_fails _ _ _ _ Hx). reflexivity.
    + rewrite (later_delete_ok _ _ _ _ Hx). reflexivity.
Qed.

(** ** The entries of the form the actions read *)

Lemma FormData_get_app_Some (name : string) (before after : FormData) :
  is_Some (FormData_get name before) ->
  FormData_get name (before ++ after) = FormData_get name before.
Proof.
  induction before as [| [k v] before IH]; simpl.
  - intros [x Hx]. discriminate.
  - destruct (String.eqb k name); [reflexivity | exact IH].
Qed.

Lemma FormData_get_skip (name k : string) (value : FormDataEntryValue)
    (before after : FormData) :
  k <> name ->
  FormData_get name (before ++ (k, value) :: after) = FormData_get name (before ++ after).
Proof.
  intros Hne. induction before as [| [k' v'] before IH]; simpl.
  - destruct (String.eqb_spec k name); [contradiction | reflexivity].
  - destruct (String.eqb k' name); [reflexivity | exact IH].
Qed.

(** Removing an entry that is never read changes none of the three
    values read. *)
Lemma rawInvoice_neverRead (before after : FormData) (name : string)
    (value : FormDataEntryValue) :
  neverRead before name ->
  rawInvoice (before ++ (name, value) :: after) = rawInvoice (before ++ after).
Proof.
  intros Hnever.
  assert (Hget : forall k, k ∈ readNames ->
            FormData_get k (before ++ (name, value) :: after) =
            FormData_get k (before ++ after)).
  { intros k Hk. destruct (String.eqb_spec name k) as [-> | Hne].
    - destruct Hnever as [Hout | Hsome]; [contradiction |].
      rewrite !FormData_get_app_Some by exact Hsome. reflexivity.
    - apply FormData_get_skip, Hne. }
  unfold rawInvoice. unfold readNames in Hget.
  rewrite !Hget by (rewrite !elem_of_cons; auto). reflexivity.
Qed.

(** X8: the actions read only the first customerId, amount and status
    entries of the form. An entry of any other name (an id or a date a
    client adds, for one), or a second entry of one of the three names,
    can be removed from the form without changing the result, the store
    or the trace of [createInvoice] and [updateInvoice], in both
    variants. *)
Theorem actions_ignore_unread_entries {Store : Type} `{!Database Store}
    (prevState : State) (id : string) (before after : FormData) (name : string)
    (value : FormDataEntryValue) (clk : Z) (st : Store) :
  neverRead before name ->
  Earlier.createInvoice (before ++ (name, value) :: after) clk st =
  Earlier.createInvoice (before ++ after) clk st /\
  Earlier.updateInvoice id (before ++ (name, value) :: after) clk st =
  Earlier.updateInvoice id (before ++ after) clk st /\
  Later.createInvoice prevState (before ++ (name, value) :: after) clk st =
  Later.createInvoice prevState (before ++ after) clk st /\
  Later.updateInvoice id (before ++ (name, value) :: after) clk st =
  Later.updateInvoice id (before ++ after) clk st.
Proof.
  intros Hnever.
  pose proof (rawInvoice_neverRead before after name value Hnever) as Hraw.
  unfold Earlier.createInvoice, Earlier.updateInvoice, Later.createInvoice,
    Later.updateInvoice.
  rewrite Hraw. repeat split; reflexivity.
Qed.

Lemma actions_ignore_unread_entries_witness :
  Later.updateInvoice "inv-1"
    ([("customerId", FormString "c1")] ++ ("id", FormString "inv-2") ::
     [("amount", FormString "49.99"); ("status", FormString "paid")])
    Sample.clock Sample.healthy =
  Later.updateInvoice "inv-1"
    ([("customerId", FormString "c1")] ++
     [("amount", FormString "49.99"); ("status", FormString "paid")])
    Sample.clock Sample.healthy /\
  Later.createInvoice Sample.prevState
    ([("customerId", FormString "c1"); ("amount", FormString "49.99")] ++
     ("amount", FormString "0.01") :: [("status", FormString "paid")])
    Sample.clock Sample.healthy =
  Later.createInvoice Sample.prevState
    ([("customerId", FormString "c1"); ("amount", FormString "49.99")] ++
     [("status", FormString "paid")])
    Sample.clock Sample.healthy.
Proof.
  split.
  - refine (proj2 (proj2 (proj2
      (actions_ignore_unread_entries Sample.prevState "inv-1"
         [("customerId", FormString "c1")]
         [("amount", FormString "49.99"); ("status", FormString "paid")]
         "id" (FormString "inv-2") Sample.clock Sample.healthy _)))).
    left. unfold readNames. rewrite !elem_of_cons, elem_of_nil.
    intros [H | [H | [H | H]]]; try discriminate H; exact H.
  - refine (proj1 (proj2 (proj2
      (actions_ignore_unread_entries Sample.prevState "inv-1"
         [("customerId", FormString "c1"); ("amount", FormString "49.99")]
         [("status", FormString "paid")]
         "amount" (FormString "0.01") Sample.clock Sample.healthy _)))).
    right. vm_compute. eexists. reflexivity.
Defined.

(** ** The two variants on the path of success *)



(** * Signing in *)

Section AuthorizeProperties.
Context {User Store : Type}.
Context (user_password : User -> string).
Context (select_users : string -> Store -> string + list User).
Context (isEmail : string -> bool).
Context (bcrypt_compare : string -> string -> bool).

Abbreviation getUser := (Auth.getUser select_users).
Abbreviation parsedCredentials := (Auth.parsedCredentials isEmail).
Abbreviation authorize :=
  (Auth.authorize user_password select_users isEmail bcrypt_compare).

(** The credentials the schema accepts: an object whose email is a
    string of email format and whose password is a string of at least
    six code units. *)
Lemma parsedCredentials_Some (credentials : option Auth.Credentials) (e p : string) :
  parsedCredentials credentials = Some (e, p) <->
  credentials = Some {| Auth.email := Auth.Str e; Auth.password := Auth.Str p |} /\
  isEmail e = true /\ (6 <= String.length p)%nat.
Proof.
  unfold Auth.parsedCredentials. split.
  - destruct credentials as [[[| e' |] [| p' |]] |]; try discriminate.
    destruct (isEmail e') eqn:He; [| discriminate].
    destruct (Nat.ltb_spec (String.length p') 6) as [Hlt | Hge]; [discriminate |].
    simpl. intros Heq. injection Heq as <- <-. auto.
  - intros (-> & He & Hp). rewrite He.
    destruct (Nat.ltb_spec (String.length p) 6); [lia | reflexivity].
Qed.

(** X9: [authorize] returns a user exactly when the credentials are an
    email-format string and a password string of six code units or more,
    the query for that email succeeded with at least one row, the user is
    row 0 of the result, and [bcrypt.compare] accepts the submitted
    password against that row's hash. *)
Theorem authorize_returns_user_iff (credentials : option Auth.Credentials) (st : Store)
    (user : User) :
  (authorize credentials st).1 = inr (Some user) <->
  exists e p rows,
    credentials = Some {| Auth.email := Auth.Str e; Auth.password := Auth.Str p |} /\
    isEmail e = true /\ (6 <= String.length p)%nat /\
    select_users e st = inr (user :: rows) /\
    bcrypt_compare p (user_password user) = true.
Proof.
  unfold Auth.authorize, Auth.getUser. split.
  - destruct (parsedCredentials credentials) as [[e p] |] eqn:Hp; [| discriminate].
    apply parsedCredentials_Some in Hp as (-> & He & Hlen).
    destruct (select_users e st) as [text | [| u rows]] eqn:Hsel; try discriminate.
    simpl. destruct (bcrypt_compare p (user_password u)) eqn:Hcmp; [| discriminate].
    simpl. intros H. injection H as <-. exists e, p, rows. auto.
  - intros (e & p & rows & Hc & He & Hlen & Hsel & Hcmp).
    assert (Hp : parsedCredentials credentials = Some (e, p))
      by (apply parsedCredentials_Some; auto).
    rewrite Hp, Hsel. simpl. rewrite Hcmp. reflexivity.
Qed.

(** X10: when the credentials do not pass the schema (the object is
    absent, a value is not a string, the email is not of email format or
    the password has fewer than six code units), [authorize] returns
    [null] after writing "Invalid credentials" to the console, and does
    nothing else: no query is sent and no password is compared. *)
Theorem authorize_rejects_malformed_credentials (credentials : option Auth.Credentials)
    (st : Store) :
  (forall e p,
     credentials = Some {| Auth.email := Auth.Str e; Auth.password := Auth.Str p |} ->
     isEmail e = false \/ (String.length p < 6)%nat) ->
  authorize credentials st = (inr None, [Auth.ConsoleLog "Invalid credentials"]).
Proof.
  intros Hbad. unfold Auth.authorize.
  destruct (parsedCredentials credentials) as [[e p] |] eqn:Hp; [| reflexivity].
  apply parsedCredentials_Some in Hp as (Hc & He & Hlen).
  destruct (Hbad e p Hc) as [Hne | Hshort]; [congruence | lia].
Qed.

(** X11: when the query for the user fails, [authorize] does not return:
    [getUser] logs the store's error under the label "Failed to fetch
    user:" and throws a new error whose message is the fixed text
    "Failed to fetch user.", whatever the store's error; no password is
    compared and "Invalid credentials" is not written. *)
Theorem authorize_lookup_failure (e p : string) (st : Store) (text : string) :
  isEmail e = true ->
  (6 <= String.length p)%nat ->
  select_users e st = inl text ->
  getUser e st =
    (inl (Auth.Error "Failed to fetch user."),
     [Auth.SelectFailed e text; Auth.ConsoleError "Failed to fetch user:" text]) /\
  authorize (Some {| Auth.email := Auth.Str e; Auth.password := Auth.Str p |}) st =
    (inl (Auth.Error "Failed to fetch user."),
     [Auth.SelectFailed e text; Auth.ConsoleError "Failed to fetch user:" text]).
Proof.
  intros He Hlen Hsel.
  assert (Hp : parsedCredentials
                 (Some {| Auth.email := Auth.Str e; Auth.password := Auth.Str p |}) =
               Some (e, p)) by (apply parsedCredentials_Some; auto).
  unfold Auth.authorize. rewrite Hp. unfold Auth.getUser. rewrite Hsel. auto.
Qed.

(** X12: for well-formed credentials whose query succeeds, only row 0 of
    the result counts. With no row, [authorize] returns [null] in
    silence: nothing is compared and nothing is written to the console.
    With rows, the submitted password is compared once, with the hash of
    row 0; the result is that row when the comparison accepts, and
    [null] with "Invalid credentials" on the console when it does not. *)
Theorem authorize_after_lookup (e p : string) (st : Store) (rows : list User) :
  isEmail e = true ->
  (6 <= String.length p)%nat ->
  select_users e st = inr rows ->
  authorize (Some {| Auth.email := Auth.Str e; Auth.password := Auth.Str p |}) st =
  match rows with
  | [] => (inr None, [Auth.Selected e])
  | user :: _ =>
      if bcrypt_compare p (user_password user)
      then (inr (Some user),
            [Auth.Selected e; Auth.BcryptCompare p (user_password user)])
      else (inr None,
            [Auth.Selected e; Auth.BcryptCompare p (user_password user);
             Auth.ConsoleLog "Invalid credentials"])
  end.
Proof.
  intros He Hlen Hsel.
  assert (Hp : parsedCredentials
                 (Some {| Auth.email := Auth.Str e; Auth.password := Auth.Str p |}) =
               Some (e, p)) by (apply parsedCredentials_Some; auto).
  unfold Auth.authorize. rewrite Hp. unfold Auth.getUser. rewrite Hsel.
  destruct rows as [| user rows']; simpl; [reflexivity |].
  destruct (bcrypt_compare p (user_password user)); reflexivity.
Qed.

End AuthorizeProperties.

Lemma authorize_rejects_malformed_credentials_witness :
  Auth.authorize Auth.user_hash Auth.sampleSelect Auth.sampleIsEmail Auth.sampleCompare
    (Some {| Auth.email := Auth.Str "user@nextmail.com"; Auth.password := Auth.Str "12345" |})
    (Some Auth.sampleUsers) =
  (inr None, [Auth.ConsoleLog "Invalid credentials"]).
Proof.
  apply (authorize_rejects_malformed_credentials Auth.user_hash Auth.sampleSelect
           Auth.sampleIsEmail Auth.sampleCompare).
  intros e p H. injection H as <- <-. right. simpl. lia.
Defined.

Lemma authorize_lookup_failure_witness :
  Auth.authorize Auth.user_hash Auth.sampleSelect Auth.sampleIsEmail Auth.sampleCompare
    (Some {| Auth.email := Auth.Str "user@nextmail.com"; Auth.password := Auth.Str "123456" |})
    None =
  (inl (Auth.Error "Failed to fetch user."),
   [Auth.SelectFailed "user@nextmail.com" "connect ECONNREFUSED 10.0.0.5:5432";
    Auth.ConsoleError "Failed to fetch user:" "connect ECONNREFUSED 10.0.0.5:5432"]).
Proof.
  refine (proj2 (authorize_lookup_failure Auth.user_hash Auth.sampleSelect
                   Auth.sampleIsEmail Auth.sampleCompare
                   "user@nextmail.com" "123456" None
                   "connect ECONNREFUSED 10.0.0.5:5432" _ _ _)).
  - reflexivity.
  - simpl. lia.
  - reflexivity.
Defined.

Lemma authorize_after_lookup_witness :
  Auth.authorize Auth.user_hash Auth.sampleSelect Auth.sampleIsEmail Auth.sampleCompare
    (Some {| Auth.email := Auth.Str "user@nextmail.com"; Auth.password := Auth.Str "123456" |})
    (Some Auth.sampleUsers) =
  (inr (Some {| Auth.user_email := "user@nextmail.com"; Auth.user_hash := "hash(123456)" |}),
   [Auth.Selected "user@nextmail.com"; Auth.BcryptCompare "123456" "hash(123456)"]) /\
  Auth.authorize Auth.user_hash Auth.sampleSelect Auth.sampleIsEmail Auth.sampleCompare
    (Some {| Auth.email := Auth.Str "nobody@nextmail.com";
             Auth.password := Auth.Str "123456" |})
    (Some Auth.sampleUsers) =
  (inr None, [Auth.Selected "nobody@nextmail.com"]).
Proof.
  split.
  - refine (authorize_after_lookup Auth.user_hash Auth.sampleSelect Auth.sampleIsEmail
              Auth.sampleCompare "user@nextmail.com" "123456" (Some Auth.sampleUsers)
              Auth.sampleUsers _ _ _).
    + reflexivity.
    + simpl. lia.
    + vm_compute. reflexivity.
  - refine (authorize_after_lookup Auth.user_hash Auth.sampleSelect Auth.sampleIsEmail
              Auth.sampleCompare "nobody@nextmail.com" "123456" (Some Auth.sampleUsers)
              [] _ _ _).
    + reflexivity.
    + simpl. lia.
    + vm_compute. reflexivity.
Defined.
